(** * Bayes medical-test calculator and 1D Metropolis-Hastings sampler

    A shallow embedding of the arithmetic kernels of
    [docs/medical-test/medical-test.js] and [docs/mcmc-1d/mcmc-1d.js].

    JavaScript numbers are idealised: a finite double is an exact number
    (a rational in the calculator, where only [+ - * /] and [Math.round]
    occur; a real in the sampler, where [Math.exp], [Math.sqrt] and
    [Math.PI] occur), and the special values that IEEE division produces on
    a zero divisor are kept as constructors of their own.  In the sampler
    the underflow of [Math.exp] to 0 is kept as well, with the [NaN] and the
    infinity that a zero density gives the acceptance ratio, and so is the
    one loop of the redrawing whose step can be 0.  Rounding error and
    overflow of doubles are outside the model. *)

From Stdlib Require Import ZArith QArith Qround Qabs Reals Psatz List Bool.
From Stdlib Require String.
Import ListNotations.

(** ** JavaScript numbers of the calculator *)

Module JS.

Local Open Scope Q_scope.

(** The value of a JavaScript arithmetic expression: a finite number, an
    infinity with its sign, or [NaN]. *)
Inductive jsnum : Type :=
| Fin (q : Q)
| Inf (positive : bool)
| NaN.

(** [a / b] on finite operands.  IEEE 754: [0 / 0] is [NaN], a nonzero
    number over (positive) zero is the infinity of the sign of the
    numerator; nothing is thrown. *)
Definition jsdiv (a b : Q) : jsnum :=
  if Qeq_bool b 0 then
    if Qeq_bool a 0 then NaN else Inf (Qle_bool 0 a)
  else Fin (a / b).

(** [Math.round]: the nearest integer, ties towards +infinity. *)
Definition Math_round (x : Q) : Z := Qfloor (x + (1 # 2)).

End JS.

(** ** [class MedicalTestCalculator] *)

Module MedicalTest.

Import JS.
Local Open Scope Q_scope.

(** The three slider values, in percent. *)
Record MedicalTestCalculator : Type := {
  prevalence : Q;
  sensitivity : Q;
  specificity : Q
}.

(** The fields as the constructor sets them. *)
Definition constructor : MedicalTestCalculator :=
  {| prevalence := 1; sensitivity := 95; specificity := 95 |}.

(** The two operands of the only division of [calculatePosterior]. *)
Definition posterior_operands (this : MedicalTestCalculator) : Q * Q :=
  let p_d := prevalence this / 100 in
  let p_t_given_d := sensitivity this / 100 in
  let p_t_given_not_d := (100 - specificity this) / 100 in
  (p_t_given_d * p_d,
   p_t_given_d * p_d + p_t_given_not_d * (1 - p_d)).

(** [calculatePosterior()]: the quotient is formed whatever the divisor
    is; the source has no test on it. *)
Definition calculatePosterior (this : MedicalTestCalculator) : jsnum :=
  let '(numerator, denominator) := posterior_operands this in
  jsdiv numerator denominator.

(** The object returned by [calculatePopulationStats()]. *)
Record PopulationStats : Type := {
  total : Z;
  diseased : Z;
  healthy : Z;
  true_positives : Z;
  false_negatives : Z;
  true_negatives : Z;
  false_positives : Z;
  total_positives : Z;
  total_negatives : Z
}.

Definition calculatePopulationStats (this : MedicalTestCalculator)
  : PopulationStats :=
  let total := 10000%Z in
  let diseased := Math_round (inject_Z total * prevalence this / 100) in
  let healthy := (total - diseased)%Z in
  let true_positives :=
    Math_round (inject_Z diseased * sensitivity this / 100) in
  let false_negatives := (diseased - true_positives)%Z in
  let true_negatives :=
    Math_round (inject_Z healthy * specificity this / 100) in
  let false_positives := (healthy - true_negatives)%Z in
  {| total := total;
     diseased := diseased;
     healthy := healthy;
     true_positives := true_positives;
     false_negatives := false_negatives;
     true_negatives := true_negatives;
     false_positives := false_positives;
     total_positives := (true_positives + false_positives)%Z;
     total_negatives := (true_negatives + false_negatives)%Z |}.

(** A percentage the sliders can produce. *)
Definition percent (x : Q) : Prop := 0 <= x <= 100.

Definition valid (this : MedicalTestCalculator) : Prop :=
  percent (prevalence this) /\ percent (sensitivity this) /\
  percent (specificity this).

(** The closed form of the specification, on the inputs divided by 100:
    [sens * prev] and [sens * prev + (1 - spec) * (1 - prev)]. *)
Definition bayes_numerator (this : MedicalTestCalculator) : Q :=
  (sensitivity this / 100) * (prevalence this / 100).

Definition bayes_denominator (this : MedicalTestCalculator) : Q :=
  (sensitivity this / 100) * (prevalence this / 100)
  + (1 - specificity this / 100) * (1 - prevalence this / 100).

End MedicalTest.

(** ** [class MCMC1D] *)

Module MCMC.

Local Open Scope R_scope.

(** The fields of the sampler object that the sampling code reads or
    writes.  The chart dimensions and the handle of the pending animation
    frame only serve the drawing and the browser's timers. *)
Record MCMC1D : Type := {
  proposalStd : R;
  targetMean : R;
  targetStd : R;
  animationSpeed : Z;
  currentPosition : R;
  proposedPosition : R;
  samples : list R;
  acceptedSamples : nat;
  isRunning : bool
}.

(** The fields as the constructor sets them. *)
Definition constructor : MCMC1D :=
  {| proposalStd := 0.5;
     targetMean := 0.0;
     targetStd := 1.0;
     animationSpeed := 3;
     currentPosition := 0.0;
     proposedPosition := 0.0;
     samples := [];
     acceptedSamples := 0;
     isRunning := false |}.

(** Assignments to one field, [this.f = v]. *)
Definition set_proposalStd (v : R) (this : MCMC1D) : MCMC1D :=
  {| proposalStd := v;
     targetMean := targetMean this;
     targetStd := targetStd this;
     animationSpeed := animationSpeed this;
     currentPosition := currentPosition this;
     proposedPosition := proposedPosition this;
     samples := samples this;
     acceptedSamples := acceptedSamples this;
     isRunning := isRunning this |}.

Definition set_targetMean (v : R) (this : MCMC1D) : MCMC1D :=
  {| proposalStd := proposalStd this;
     targetMean := v;
     targetStd := targetStd this;
     animationSpeed := animationSpeed this;
     currentPosition := currentPosition this;
     proposedPosition := proposedPosition this;
     samples := samples this;
     acceptedSamples := acceptedSamples this;
     isRunning := isRunning this |}.

Definition set_targetStd (v : R) (this : MCMC1D) : MCMC1D :=
  {| proposalStd := proposalStd this;
     targetMean := targetMean this;
     targetStd := v;
     animationSpeed := animationSpeed this;
     currentPosition := currentPosition this;
     proposedPosition := proposedPosition this;
     samples := samples this;
     acceptedSamples := acceptedSamples this;
     isRunning := isRunning this |}.

Definition set_animationSpeed (v : Z) (this : MCMC1D) : MCMC1D :=
  {| proposalStd := proposalStd this;
     targetMean := targetMean this;
     targetStd := targetStd this;
     animationSpeed := v;
     currentPosition := currentPosition this;
     proposedPosition := proposedPosition this;
     samples := samples this;
     acceptedSamples := acceptedSamples this;
     isRunning := isRunning this |}.

Definition set_currentPosition (v : R) (this : MCMC1D) : MCMC1D :=
  {| proposalStd := proposalStd this;
     targetMean := targetMean this;
     targetStd := targetStd this;
     animationSpeed := animationSpeed this;
     currentPosition := v;
     proposedPosition := proposedPosition this;
     samples := samples this;
     acceptedSamples := acceptedSamples this;
     isRunning := isRunning this |}.

Definition set_proposedPosition (v : R) (this : MCMC1D) : MCMC1D :=
  {| proposalStd := proposalStd this;
     targetMean := targetMean this;
     targetStd := targetStd this;
     animationSpeed := animationSpeed this;
     currentPosition := currentPosition this;
     proposedPosition := v;
     samples := samples this;
     acceptedSamples := acceptedSamples this;
     isRunning := isRunning this |}.

Definition set_samples (v : list R) (this : MCMC1D) : MCMC1D :=
  {| proposalStd := proposalStd this;
     targetMean := targetMean this;
     targetStd := targetStd this;
     animationSpeed := animationSpeed this;
     currentPosition := currentPosition this;
     proposedPosition := proposedPosition this;
     samples := v;
     acceptedSamples := acceptedSamples this;
     isRunning := isRunning this |}.

Definition set_acceptedSamples (v : nat) (this : MCMC1D) : MCMC1D :=
  {| proposalStd := proposalStd this;
     targetMean := targetMean this;
     targetStd := targetStd this;
     animationSpeed := animationSpeed this;
     currentPosition := currentPosition this;
     proposedPosition := proposedPosition this;
     samples := samples this;
     acceptedSamples := v;
     isRunning := isRunning this |}.

Definition set_isRunning (v : bool) (this : MCMC1D) : MCMC1D :=
  {| proposalStd := proposalStd this;
     targetMean := targetMean this;
     targetStd := targetStd this;
     animationSpeed := animationSpeed this;
     currentPosition := currentPosition this;
     proposedPosition := proposedPosition this;
     samples := samples this;
     acceptedSamples := acceptedSamples this;
     isRunning := v |}.

(** [a < b] on numbers, as a boolean. *)
Definition Rltb (a b : R) : bool := if Rlt_dec a b then true else false.

(** [a === b] on numbers, as a boolean. *)
Definition Reqb (a b : R) : bool := if Req_dec_T a b then true else false.

(** The value of an expression of the sampler that need not be finite: a
    number, an infinity with its sign, or [NaN]. *)
Inductive jsreal : Type :=
| Num (r : R)
| Infinity (positive : bool)
| NotANumber.

(** [a / b] on finite operands, the divisor not negative.  IEEE 754:
    [0 / 0] is [NaN] and a nonzero number over zero is the infinity of the
    sign of the numerator. *)
Definition num_div (a b : R) : jsreal :=
  if Reqb b 0 then
    if Reqb a 0 then NotANumber else Infinity (Rltb 0 a)
  else Num (a / b).

(** [Math.min(a, b)] for a finite [a]: [NaN] when [b] is. *)
Definition Math_min (a : R) (b : jsreal) : jsreal :=
  match b with
  | Num r => Num (Rmin a r)
  | Infinity true => Num a
  | Infinity false => Infinity false
  | NotANumber => NotANumber
  end.

(** [a < b] for a finite [a]: false when [b] is [NaN]. *)
Definition num_lt (a : R) (b : jsreal) : bool :=
  match b with
  | Num r => Rltb a r
  | Infinity positive => positive
  | NotANumber => false
  end.

(** [Math.exp], the one library function of the sampler whose result
    leaves the normal range of doubles at arguments of ordinary size.  For
    [-708 <= x <= 0] the result is a normal double and is taken exact, like
    the other operations; for [x <= -746] it has underflowed to 0 (the
    smallest double is about [exp (-744.4)]); in between it is a subnormal
    with few significant bits, of which only the range is known. *)
Class JSMath : Type := {
  Math_exp : R -> R;
  Math_exp_normal : forall x : R, -708 <= x <= 0 -> Math_exp x = exp x;
  Math_exp_underflow : forall x : R, x <= -746 -> Math_exp x = 0;
  Math_exp_unit : forall x : R, x <= 0 -> 0 <= Math_exp x <= 1
}.

(** [for (let x = lo; x <= hi; x += step) data.push(...)], the loop that
    samples a curve for a chart: the values of [x] pushed, or [None] when
    [fuel] iterations do not end it. *)
Fixpoint for_x (fuel : nat) (x hi step : R) : option (list R) :=
  match fuel with
  | O => None
  | S fuel =>
      if Rle_dec x hi
      then option_map (cons x) (for_x fuel (x + step) hi step)
      else Some []
  end.

(** The loop of the three charts, with its step [(hi - lo) / 100]: it
    needs at most 101 iterations and the failing test, or it never
    ends. *)
Definition curve_loop_returns (lo hi : R) : bool :=
  match for_x 102 lo hi ((hi - lo) / 100) with
  | Some _ => true
  | None => false
  end.

(** [d3.extent(array)] of a non-empty array: its minimum and maximum. *)
Definition d3_extent (l : list R) : option (R * R) :=
  match l with
  | [] => None
  | x :: l => Some (fold_left Rmin l x, fold_left Rmax l x)
  end.

(** Whether the redrawing returns.  [updateTargetChart()] samples the
    target over [targetMean -+ 4 * targetStd]; [updateHistogram()] returns
    at once below ten samples and otherwise samples the overlay over the
    extent of the samples; [updateProposalChart()] returns early without
    samples and otherwise samples the proposal over
    [currentPosition -+ 3 * proposalStd].  The calls into d3 and the DOM are
    taken to return. *)
Definition updateTargetChart_returns (this : MCMC1D) : bool :=
  curve_loop_returns (targetMean this - 4 * targetStd this)
                     (targetMean this + 4 * targetStd this).

Definition updateHistogram_returns (this : MCMC1D) : bool :=
  if (length (samples this) <? 10)%nat then true
  else match d3_extent (samples this) with
       | Some (lo, hi) => curve_loop_returns lo hi
       | None => true
       end.

Definition updateProposalChart_returns (this : MCMC1D) : bool :=
  if (length (samples this) =? 0)%nat then true
  else curve_loop_returns (currentPosition this - 3 * proposalStd this)
                          (currentPosition this + 3 * proposalStd this).

(** [updateAll()] returns when each of its charts does. *)
Definition updateAll_returns (this : MCMC1D) : bool :=
  updateTargetChart_returns this
  && updateHistogram_returns this
  && updateProposalChart_returns this.

(** [proposePosition()]; [u] is the value [Math.random()] returns. *)
Definition proposePosition (this : MCMC1D) (u : R) : R :=
  currentPosition this + (u - 0.5) * 2 * proposalStd this * sqrt 12.

Definition pauseSampling (this : MCMC1D) : MCMC1D :=
  set_isRunning false this.

(** [resetSampling()]: the fields after its assignments.  The redrawing
    that ends it finds no samples and returns unless [targetStd] is 0. *)
Definition resetSampling (this : MCMC1D) : MCMC1D :=
  let this := pauseSampling this in
  let this := set_currentPosition 0.0 this in
  let this := set_proposedPosition 0.0 this in
  let this := set_samples [] this in
  set_acceptedSamples 0 this.

Section Sampler.

Context {math : JSMath}.

(** [targetDensity(x)]: the target distribution (Gaussian).  With a
    [targetStd] other than 0 every intermediate value is finite. *)
Definition targetDensity (this : MCMC1D) (x : R) : R :=
  let variance := targetStd this * targetStd this in
  Math_exp (-0.5 * (x - targetMean this) ^ 2 / variance)
  / sqrt (2 * PI * variance).

(** [acceptProposal(current, proposed)], the Metropolis acceptance
    criterion; [u] is the value [Math.random()] returns. *)
Definition acceptProposal (this : MCMC1D) (current proposed u : R) : bool :=
  let currentProb := targetDensity this current in
  let proposedProb := targetDensity this proposed in
  let acceptanceRatio := num_div proposedProb currentProb in
  num_lt u (Math_min 1 acceptanceRatio).

(** The block "Perform MCMC step" of [animate()].  [u1] and [u2] are the
    two values [Math.random()] returns, in the order of the calls. *)
Definition mcmcStep (this : MCMC1D) (u1 u2 : R) : MCMC1D :=
  let this := set_proposedPosition (proposePosition this u1) this in
  let accepted :=
    acceptProposal this (currentPosition this) (proposedPosition this) u2 in
  let this :=
    if accepted then
      let this := set_currentPosition (proposedPosition this) this in
      set_acceptedSamples (S (acceptedSamples this)) this
    else this in
  set_samples (samples this ++ [currentPosition this]) this.

(** [animate()]: nothing happens unless the sampler is running; otherwise
    the step is performed and the charts are redrawn.  [None] stands for a
    call that never returns, the fields already updated by the step; the
    next call is left to the timer that the caller stands for. *)
Definition animate (this : MCMC1D) (u1 u2 : R) : option MCMC1D :=
  if negb (isRunning this) then Some this
  else
    let this := mcmcStep this u1 u2 in
    if updateAll_returns this then Some this else None.

Definition startSampling (this : MCMC1D) (u1 u2 : R) : option MCMC1D :=
  let this := set_isRunning true this in
  animate this u1 u2.

(** The states the page can be in: what the button and slider handlers
    and the animation callback make of the constructed object, whatever
    their order and whatever the random draws; a reset and a bare MCMC step
    may also start from, or be applied to, any state. *)
Inductive reachable : MCMC1D -> Prop :=
| reach_constructor : reachable constructor
| reach_reset_any (this : MCMC1D) : reachable (resetSampling this)
| reach_step (this : MCMC1D) (u1 u2 : R) :
    reachable this -> reachable (mcmcStep this u1 u2)
| reach_animate (this this' : MCMC1D) (u1 u2 : R) :
    reachable this -> animate this u1 u2 = Some this' -> reachable this'
| reach_start (this this' : MCMC1D) (u1 u2 : R) :
    reachable this -> startSampling this u1 u2 = Some this' ->
    reachable this'
| reach_pause (this : MCMC1D) :
    reachable this -> reachable (pauseSampling this)
| reach_proposalStd (this : MCMC1D) (v : R) :
    reachable this -> reachable (set_proposalStd v this)
| reach_targetMean (this : MCMC1D) (v : R) :
    reachable this -> reachable (set_targetMean v this)
| reach_targetStd (this : MCMC1D) (v : R) :
    reachable this -> reachable (set_targetStd v this)
| reach_animationSpeed (this : MCMC1D) (v : Z) :
    reachable this -> reachable (set_animationSpeed v this).

End Sampler.

(** One [Math.exp] within the description above, for the examples: exact
    on the normal range, 0 below it. *)
Definition flushing_exp (x : R) : R :=
  if Rle_dec (-708) x then exp x else 0.

Lemma flushing_exp_normal (x : R) :
  -708 <= x <= 0 -> flushing_exp x = exp x.
Proof.
  intros [H _]. unfold flushing_exp. destruct (Rle_dec (-708) x); [|lra].
  reflexivity.
Qed.

Lemma flushing_exp_underflow (x : R) : x <= -746 -> flushing_exp x = 0.
Proof.
  intros H. unfold flushing_exp. destruct (Rle_dec (-708) x); [lra|].
  reflexivity.
Qed.

Lemma flushing_exp_unit (x : R) : x <= 0 -> 0 <= flushing_exp x <= 1.
Proof.
  intros H. unfold flushing_exp. destruct (Rle_dec (-708) x); [|lra].
  split; [left; apply exp_pos|].
  rewrite <- exp_0. destruct H as [H | ->]; [|lra].
  left. now apply exp_increasing.
Qed.

Definition flushing_math : JSMath :=
  {| Math_exp := flushing_exp;
     Math_exp_normal := flushing_exp_normal;
     Math_exp_underflow := flushing_exp_underflow;
     Math_exp_unit := flushing_exp_unit |}.

(** A position within 37 standard deviations of the mean, where the
    exponent of the density is in the normal range of [Math.exp], and one
    39 or more away, where it has underflowed. *)
Definition near (this : MCMC1D) (x : R) : Prop :=
  Rabs (x - targetMean this) <= 37 * targetStd this.

Definition far (this : MCMC1D) (x : R) : Prop :=
  39 * targetStd this <= Rabs (x - targetMean this).

(** The invariant of the chain state: no more acceptances than recorded
    samples. *)
Definition counted (this : MCMC1D) : Prop :=
  (acceptedSamples this <= length (samples this))%nat.

(** The density of the normal distribution N(mean, std), as textbooks
    write it. *)
Definition gaussian_density (mean std x : R) : R :=
  / (std * sqrt (2 * PI)) * exp (- ((x - mean) ^ 2 / (2 * std ^ 2))).

(** The random perturbation that [proposePosition] adds to the current
    position, as a function of the uniform draw. *)
Definition perturbation (scale u : R) : R :=
  (u - 0.5) * 2 * scale * sqrt 12.

(** [Math.random()] is uniform on [0,1): the mean of [f u] over its draws
    is the integral of [f] from 0 to 1. *)
Lemma perturbation_integrable (scale : R) :
  Riemann_integrable (perturbation scale) 0 1.
Proof.
  apply continuity_implies_RiemannInt; [lra|].
  intros x _. unfold perturbation. reg.
Defined.

Lemma perturbation_sq_integrable (scale : R) :
  Riemann_integrable (fun u => perturbation scale u ^ 2) 0 1.
Proof.
  apply continuity_implies_RiemannInt; [lra|].
  intros x _. unfold perturbation. reg.
Defined.

(** The perturbation without the factor 2, uniform on an interval of
    width [scale * sqrt 12]. *)
Definition unit_width_perturbation (scale u : R) : R :=
  (u - 0.5) * scale * sqrt 12.

Lemma unit_width_sq_integrable (scale : R) :
  Riemann_integrable (fun u => unit_width_perturbation scale u ^ 2) 0 1.
Proof.
  apply continuity_implies_RiemannInt; [lra|].
  intros x _. unfold unit_width_perturbation. reg.
Defined.

Definition perturbation_mean (scale : R) : R :=
  RiemannInt (perturbation_integrable scale).

Definition perturbation_second_moment (scale : R) : R :=
  RiemannInt (perturbation_sq_integrable scale).

Definition perturbation_variance (scale : R) : R :=
  perturbation_second_moment scale - perturbation_mean scale ^ 2.

End MCMC.

(** ** The calculator's displays *)

Module MedicalTestView.

Import JS MedicalTest.
Local Open Scope Q_scope.

(** [a < b] on finite numbers, as a boolean. *)
Definition Qltb (a b : Q) : bool := negb (Qle_bool b a).

(** [x < c] and [x > c] for a computed value [x] and a finite literal [c];
    every comparison with [NaN] is false. *)
Definition jslt (x : jsnum) (c : Q) : bool :=
  match x with
  | Fin q => Qltb q c
  | Inf positive => negb positive
  | NaN => false
  end.

Definition jsgt (x : jsnum) (c : Q) : bool :=
  match x with
  | Fin q => Qltb c q
  | Inf positive => positive
  | NaN => false
  end.

(** [updateProbabilityChart()]: the two bars, drawn on a y axis whose
    domain is [0, 1]. *)
Definition prior (this : MedicalTestCalculator) : Q := prevalence this / 100.

Definition updateProbabilityChart (this : MedicalTestCalculator)
  : Q * jsnum :=
  let posterior := calculatePosterior this in
  let prior := prevalence this / 100 in
  (prior, posterior).

(** The attributes [x], [y], [width], [height] of an SVG rectangle. *)
Record rect : Type := {
  rect_x : Q;
  rect_y : Q;
  rect_width : Q;
  rect_height : Q
}.

Definition area (r : rect) : Q := rect_width r * rect_height r.

(** The four rectangles [updateRectangleDiagram()] appends, in the order
    of the source: true positives, false negatives, false positives, true
    negatives. *)
Record RectangleDiagram : Type := {
  true_positive_rect : rect;
  false_negative_rect : rect;
  false_positive_rect : rect;
  true_negative_rect : rect
}.

Definition updateRectangleDiagram (this : MedicalTestCalculator)
  : RectangleDiagram :=
  let p_d := prevalence this / 100 in
  let sensitivity := sensitivity this / 100 in
  let specificity := specificity this / 100 in
  let width := 400 in
  let height := 300 in
  let margin := 50 in
  let rectWidth := width - 2 * margin in
  let rectHeight := height - 2 * margin in
  let diseased_width := p_d * rectWidth in
  let healthy_width := (1 - p_d) * rectWidth in
  {| true_positive_rect :=
       {| rect_x := 0; rect_y := 0;
          rect_width := diseased_width;
          rect_height := sensitivity * rectHeight |};
     false_negative_rect :=
       {| rect_x := 0; rect_y := sensitivity * rectHeight;
          rect_width := diseased_width;
          rect_height := (1 - sensitivity) * rectHeight |};
     false_positive_rect :=
       {| rect_x := diseased_width; rect_y := 0;
          rect_width := healthy_width;
          rect_height := (1 - specificity) * rectHeight |};
     true_negative_rect :=
       {| rect_x := diseased_width; rect_y := (1 - specificity) * rectHeight;
          rect_width := healthy_width;
          rect_height := specificity * rectHeight |} |}.

(** The messages of [updateInsights()].  Each constructor stands for one
    of the five fixed texts of the source and carries the values the text
    interpolates. *)
Inductive insight : Type :=
| BaseRateFallacy
| LowBaseRate (prevalence : Q)
| PositiveCounts (total_positives true_positives : Z)
| HighConfidence (posterior : jsnum)
| Tip.

(** [updateInsights()]: the list [insights] after the pushes, before it is
    joined into HTML. *)
Definition updateInsights (this : MedicalTestCalculator) : list insight :=
  let posterior := calculatePosterior this in
  let stats := calculatePopulationStats this in
  let insights := [] in
  let insights :=
    if jslt posterior 0.5 then insights ++ [BaseRateFallacy]
    else insights in
  let insights :=
    if Qltb (prevalence this) 5
    then insights ++ [LowBaseRate (prevalence this)]
    else insights in
  let insights :=
    insights
    ++ [PositiveCounts (total_positives stats) (true_positives stats)] in
  let insights :=
    if jsgt posterior 0.9 then insights ++ [HighConfidence posterior]
    else insights in
  insights ++ [Tip].

(** Two computed values are the same number. *)
Definition jsnum_same (x y : jsnum) : Prop :=
  match x, y with
  | Fin p, Fin q => p == q
  | Inf a, Inf b => a = b
  | NaN, NaN => True
  | _, _ => False
  end.

End MedicalTestView.

(** ** The sampler's timing and displays *)

Module MCMCView.

Import MCMC.
Local Open Scope R_scope.

(** The delay, in milliseconds, that [animate()] passes to
    [setTimeout]. *)
Definition animationDelay (this : MCMC1D) : Z :=
  (Z.max 1 (6 - animationSpeed this) * 100)%Z.

(** [array[i]] for an integer [i]: [undefined] outside the array. *)
Definition js_index {A : Type} (l : list A) (i : Z) : option A :=
  if (i <? 0)%Z then None else nth_error l (Z.to_nat i).

(** [updateStats()]: the number shown as acceptance rate, before it is
    cut to one decimal. *)
Definition acceptanceRate (this : MCMC1D) : R :=
  if (0 <? length (samples this))%nat
  then INR (acceptedSamples this) / INR (length (samples this)) * 100
  else 0.

(** [array.slice(start)]: a negative [start] counts from the end. *)
Definition Array_slice {A : Type} (l : list A) (start : Z) : list A :=
  let len := Z.of_nat (length l) in
  let k := if (start <? 0)%Z then Z.max (len + start) 0
           else Z.min start len in
  skipn (Z.to_nat k) l.

(** [updateTraceChart()]: the highlighted points, the index of the first
    one on the x axis, and the opacity of the [i]-th. *)
Definition recentSamples (this : MCMC1D) : list R :=
  Array_slice (samples this) (-20).

Definition startIndex (this : MCMC1D) : Z :=
  Z.max 0 (Z.of_nat (length (samples this)) - 20).

Definition recentOpacity (this : MCMC1D) (i : nat) : R :=
  0.3 + 0.7 * (INR i / INR (length (recentSamples this))).

(** [updateHistogram()] returns at once below ten samples; otherwise the
    number of bins asked for is
    [Math.min(20, Math.floor(Math.sqrt(samples.length)))]. *)
Definition histogramDrawn (this : MCMC1D) : bool :=
  negb (length (samples this) <? 10)%nat.

Definition binCount (this : MCMC1D) : Z :=
  Z.min 20 (Int_part (sqrt (INR (length (samples this))))).

(** The domain [xRange] of the x axis of [updateProposalChart()]. *)
Definition proposalChartRange (this : MCMC1D) : R * R :=
  (currentPosition this - 3 * proposalStd this,
   currentPosition this + 3 * proposalStd this).

Section SamplerViews.

Context {math : JSMath}.

(** The animation callback called once per pair of draws, as long as
    each call returns. *)
Fixpoint run_ticks (this : MCMC1D) (draws : list (R * R))
  : option MCMC1D :=
  match draws with
  | [] => Some this
  | d :: draws =>
      match animate this (fst d) (snd d) with
      | Some this => run_ticks this draws
      | None => None
      end
  end.

(** [Math.min(1, acceptanceRatio)], the value [acceptProposal] compares
    its draw with and [updateProposalChart()] prints as "Accept Prob". *)
Definition acceptanceThreshold (this : MCMC1D) (current proposed : R)
  : jsreal :=
  let currentProb := targetDensity this current in
  let proposedProb := targetDensity this proposed in
  let acceptanceRatio := num_div proposedProb currentProb in
  Math_min 1 acceptanceRatio.

(** The overlay of [updateHistogram()]: the target density scaled so
    that its value at [targetMean] is the height [maxCount] of the tallest
    bin, [d3.max(bins, d => d.length)]. *)
Definition histogramOverlay (this : MCMC1D) (maxCount : nat) (x : R) : R :=
  let targetScale := INR maxCount / targetDensity this (targetMean this) in
  targetDensity this x * targetScale.

End SamplerViews.

Import Stdlib.Strings.String.

(** [updateAnimationSpeedLabel()]: the text shown beside the speed
    slider. *)
Definition updateAnimationSpeedLabel (this : MCMC1D)
  : option String.string :=
  let labels :=
    ["Very Slow"; "Slow"; "Medium"; "Fast"; "Very Fast"]%string in
  js_index labels (animationSpeed this - 1)%Z.

End MCMCView.

Module MedicalTestTheory.

Import JS MedicalTest.
Local Open Scope Q_scope.

(** *** Division *)

Lemma jsdiv_nonzero (a b : Q) : ~ b == 0 -> jsdiv a b = Fin (a / b).
Proof.
  intros Hb. unfold jsdiv.
  destruct (Qeq_bool b 0) eqn:E; [|reflexivity].
  apply Qeq_bool_iff in E. contradiction.
Qed.

Lemma jsdiv_zero_zero (a b : Q) : b == 0 -> a == 0 -> jsdiv a b = NaN.
Proof.
  intros Hb Ha. unfold jsdiv.
  apply Qeq_bool_iff in Hb, Ha. now rewrite Hb, Ha.
Qed.

Lemma jsdiv_Fin_inv (a b q : Q) :
  jsdiv a b = Fin q -> ~ b == 0 /\ q = a / b.
Proof.
  unfold jsdiv. destruct (Qeq_bool b 0) eqn:E.
  - destruct (Qeq_bool a 0); discriminate.
  - intros [= <-]. split; [|reflexivity].
    intros Hb. apply Qeq_bool_iff in Hb. congruence.
Qed.

Lemma jsdiv_NaN_inv (a b : Q) : jsdiv a b = NaN -> b == 0 /\ a == 0.
Proof.
  unfold jsdiv. destruct (Qeq_bool b 0) eqn:Eb; [|discriminate].
  destruct (Qeq_bool a 0) eqn:Ea; [|discriminate].
  intros _. split; now apply Qeq_bool_iff.
Qed.

(** *** The operands of the posterior *)

Lemma operands_numerator this :
  fst (posterior_operands this) == bayes_numerator this.
Proof. unfold posterior_operands, bayes_numerator. simpl. reflexivity. Qed.

Lemma operands_denominator this :
  snd (posterior_operands this) == bayes_denominator this.
Proof. unfold posterior_operands, bayes_denominator. simpl. field. Qed.

Lemma calculatePosterior_jsdiv this :
  calculatePosterior this =
  jsdiv (fst (posterior_operands this)) (snd (posterior_operands this)).
Proof. reflexivity. Qed.

Lemma numerator_nonneg this : valid this -> 0 <= bayes_numerator this.
Proof.
  intros ([Hp _] & [Hs _] & _). unfold bayes_numerator.
  apply Qmult_le_0_compat; apply Qle_shift_div_l; lra.
Qed.

Lemma false_positive_term_nonneg this :
  valid this ->
  0 <= (1 - specificity this / 100) * (1 - prevalence this / 100).
Proof.
  intros ([_ Hp] & _ & [_ Ht]).
  apply Qmult_le_0_compat.
  - assert (specificity this / 100 <= 1)
      by (apply Qle_shift_div_r; lra). lra.
  - assert (prevalence this / 100 <= 1)
      by (apply Qle_shift_div_r; lra). lra.
Qed.

Lemma denominator_nonneg this : valid this -> 0 <= bayes_denominator this.
Proof.
  intros Hv. unfold bayes_denominator.
  pose proof (numerator_nonneg this Hv) as Hn. unfold bayes_numerator in Hn.
  pose proof (false_positive_term_nonneg this Hv). lra.
Qed.

(** With valid inputs a zero denominator forces a zero numerator: the
    quotient is then [0 / 0], never a nonzero number over zero. *)
Lemma degenerate_numerator this :
  valid this -> bayes_denominator this == 0 -> bayes_numerator this == 0.
Proof.
  intros Hv Hd.
  pose proof (numerator_nonneg this Hv) as Hn.
  pose proof (false_positive_term_nonneg this Hv) as Hf.
  unfold bayes_denominator in Hd. unfold bayes_numerator in *. lra.
Qed.

(** Cross-multiplication: a fraction of the shape [x / (x + c)] grows with
    [x] and shrinks with [c]. *)
Lemma fraction_mono (x1 c1 x2 c2 : Q) :
  0 <= x1 -> x1 <= x2 -> 0 <= c2 -> c2 <= c1 ->
  0 < x1 + c1 -> 0 < x2 + c2 ->
  x1 / (x1 + c1) <= x2 / (x2 + c2).
Proof.
  intros Hx1 Hx Hc2 Hc H1 H2.
  apply Qle_shift_div_l; [assumption|].
  assert (E : x1 / (x1 + c1) * (x2 + c2) == x1 * (x2 + c2) / (x1 + c1))
    by (field; lra).
  rewrite E. apply Qle_shift_div_r; [assumption|]. nra.
Qed.

(** *** The posterior *)

(** Off the degenerate case the quotient is a number, the closed form. *)
Lemma calculatePosterior_defined (this : MedicalTestCalculator) :
  ~ bayes_denominator this == 0 ->
  exists q,
    calculatePosterior this = Fin q /\
    q == bayes_numerator this / bayes_denominator this.
Proof.
  intros Hd. rewrite calculatePosterior_jsdiv.
  rewrite jsdiv_nonzero by (now rewrite operands_denominator).
  eexists. split; [reflexivity|].
  now rewrite operands_numerator, operands_denominator.
Qed.

(** C1: for prevalence, sensitivity and specificity in [0,100],
    [calculatePosterior] returns the number
    [(sens * prev) / (sens * prev + (1 - spec) * (1 - prev))], with
    [prev], [sens], [spec] the inputs divided by 100, whenever that
    denominator is not zero. *)
Theorem calculatePosterior_bayes (this : MedicalTestCalculator) :
  valid this ->
  ~ bayes_denominator this == 0 ->
  exists q,
    calculatePosterior this = Fin q /\
    q == bayes_numerator this / bayes_denominator this.
Proof. intros _ Hd. now apply calculatePosterior_defined. Qed.

Lemma calculatePosterior_bayes_witness :
  valid constructor /\
  ~ bayes_denominator constructor == 0 /\
  exists q,
    calculatePosterior constructor = Fin q /\
    q == bayes_numerator constructor / bayes_denominator constructor.
Proof.
  assert (Hv : valid constructor) by (unfold valid, percent; simpl; lra).
  assert (Hd : ~ bayes_denominator constructor == 0)
    by (vm_compute; discriminate).
  split; [exact Hv|]. split; [exact Hd|].
  exact (calculatePosterior_bayes constructor Hv Hd).
Defined.

(** The degenerate case of a valid input: the quotient is [0 / 0]. *)
Lemma calculatePosterior_degenerate this :
  valid this -> bayes_denominator this == 0 -> calculatePosterior this = NaN.
Proof.
  intros Hv Hd. rewrite calculatePosterior_jsdiv. apply jsdiv_zero_zero.
  - now rewrite operands_denominator.
  - rewrite operands_numerator. now apply degenerate_numerator.
Qed.

(** C4, as the code has it: [calculatePosterior] has no guard and never
    fails; it always forms the quotient of its two operands.  For inputs in
    [0,100] the result is [NaN], the value of [0 / 0], exactly when
    [sens * prev + (1 - spec) * (1 - prev) = 0], and a finite number
    otherwise; [NaN] is not the valid posterior 0. *)
Theorem calculatePosterior_NaN_iff_degenerate (this : MedicalTestCalculator) :
  valid this ->
  calculatePosterior this =
    jsdiv (fst (posterior_operands this)) (snd (posterior_operands this)) /\
  (snd (posterior_operands this) == 0 <-> bayes_denominator this == 0) /\
  (calculatePosterior this = NaN <-> bayes_denominator this == 0) /\
  (~ bayes_denominator this == 0 -> exists q, calculatePosterior this = Fin q) /\
  NaN <> Fin 0.
Proof.
  intros Hv. split; [reflexivity|]. split; [|split; [|split]].
  - now rewrite operands_denominator.
  - split.
    + rewrite calculatePosterior_jsdiv. intros H.
      apply jsdiv_NaN_inv in H. now rewrite <- operands_denominator.
    + now apply calculatePosterior_degenerate.
  - intros Hd. destruct (calculatePosterior_defined this Hd) as (q & Hq & _).
    now exists q.
  - discriminate.
Qed.

Lemma calculatePosterior_NaN_iff_degenerate_witness :
  let this := {| prevalence := 100; sensitivity := 0; specificity := 30 |} in
  valid this /\
  bayes_denominator this == 0 /\
  calculatePosterior this = NaN.
Proof.
  cbv zeta.
  assert (Hv : valid {| prevalence := 100; sensitivity := 0;
                        specificity := 30 |})
    by (unfold valid, percent; simpl; lra).
  assert (Hd : bayes_denominator {| prevalence := 100; sensitivity := 0;
                                    specificity := 30 |} == 0)
    by reflexivity.
  split; [exact Hv|]. split; [exact Hd|].
  destruct (calculatePosterior_NaN_iff_degenerate _ Hv)
    as (_ & _ & [_ Hnan] & _).
  exact (Hnan Hd).
Defined.

(** C4, counterexample: at prevalence 0, sensitivity 50, specificity 100 the
    divisor that [calculatePosterior] hands to [/] is zero; no guard stands
    before the division, and the [NaN] returned is the quotient [0 / 0]
    itself. *)
Lemma calculatePosterior_divides_by_zero :
  let this := {| prevalence := 0; sensitivity := 50; specificity := 100 |} in
  valid this /\
  snd (posterior_operands this) == 0 /\
  fst (posterior_operands this) == 0 /\
  calculatePosterior this =
    jsdiv (fst (posterior_operands this)) (snd (posterior_operands this)) /\
  calculatePosterior this = NaN.
Proof.
  cbv zeta. split; [unfold valid, percent; simpl; lra|].
  repeat split; reflexivity.
Qed.

(** C6, counterexample: prevalence 0 with specificity 100 is a valid
    input, and the posterior there is [NaN], not 0. *)
Lemma calculatePosterior_zero_prevalence_NaN :
  let this := {| prevalence := 0; sensitivity := 50; specificity := 100 |} in
  valid this /\
  calculatePosterior this = NaN /\
  ~ (exists q, calculatePosterior this = Fin q /\ q == 0).
Proof.
  cbv zeta. split; [unfold valid, percent; simpl; lra|].
  split; [reflexivity|].
  intros (q & Hq & _). vm_compute in Hq. discriminate.
Qed.

(** C6, as the code has it: for sensitivity and specificity in [0,100],
    the posterior at prevalence 0 is 0 when the specificity is below 100. *)
Theorem calculatePosterior_zero_prevalence (this : MedicalTestCalculator) :
  valid this ->
  prevalence this == 0 ->
  specificity this < 100 ->
  exists q, calculatePosterior this = Fin q /\ q == 0.
Proof.
  intros Hv Hp Ht.
  assert (Hd : bayes_denominator this == 1 - specificity this / 100).
  { unfold bayes_denominator. rewrite Hp. field. }
  assert (Hlt : specificity this / 100 < 1)
    by (apply Qlt_shift_div_r; lra).
  assert (Hn : ~ bayes_denominator this == 0) by (rewrite Hd; lra).
  destruct (calculatePosterior_defined this Hn) as (q & Hq & E).
  exists q. split; [assumption|].
  rewrite E. unfold bayes_numerator at 1. rewrite Hp.
  field. assumption.
Qed.

Lemma calculatePosterior_zero_prevalence_witness :
  exists q,
    calculatePosterior
      {| prevalence := 0; sensitivity := 50; specificity := 95 |} = Fin q /\
    q == 0.
Proof.
  apply (calculatePosterior_zero_prevalence
           {| prevalence := 0; sensitivity := 50; specificity := 95 |}).
  - unfold valid, percent. simpl. lra.
  - reflexivity.
  - reflexivity.
Defined.

(** Two valid inputs whose numerators and false-positive terms are
    ordered have ordered posteriors, wherever both are numbers. *)
Lemma calculatePosterior_le (this1 this2 : MedicalTestCalculator) (q1 q2 : Q) :
  valid this1 -> valid this2 ->
  bayes_numerator this1 <= bayes_numerator this2 ->
  (1 - specificity this2 / 100) * (1 - prevalence this2 / 100)
  <= (1 - specificity this1 / 100) * (1 - prevalence this1 / 100) ->
  calculatePosterior this1 = Fin q1 ->
  calculatePosterior this2 = Fin q2 ->
  q1 <= q2.
Proof.
  intros Hv1 Hv2 Hn Hc H1 H2.
  rewrite calculatePosterior_jsdiv in H1, H2.
  apply jsdiv_Fin_inv in H1, H2.
  destruct H1 as [D1 ->], H2 as [D2 ->].
  rewrite operands_denominator in D1, D2.
  rewrite !operands_numerator, !operands_denominator.
  pose proof (denominator_nonneg this1 Hv1) as P1.
  pose proof (denominator_nonneg this2 Hv2) as P2.
  pose proof (numerator_nonneg this1 Hv1) as N1.
  pose proof (false_positive_term_nonneg this2 Hv2) as F2.
  unfold bayes_denominator in *. unfold bayes_numerator in *.
  apply fraction_mono; try assumption; lra.
Qed.

(** C7: among inputs in [0,100] at which the posterior is a number, the
    posterior does not decrease when the sensitivity grows (prevalence and
    specificity fixed), nor when the prevalence grows (sensitivity and
    specificity fixed). *)
Theorem calculatePosterior_monotone :
  (forall p s1 s2 t q1 q2,
      percent p -> percent s1 -> percent s2 -> percent t ->
      s1 <= s2 ->
      calculatePosterior
        {| prevalence := p; sensitivity := s1; specificity := t |} = Fin q1 ->
      calculatePosterior
        {| prevalence := p; sensitivity := s2; specificity := t |} = Fin q2 ->
      q1 <= q2) /\
  (forall p1 p2 s t q1 q2,
      percent p1 -> percent p2 -> percent s -> percent t ->
      p1 <= p2 ->
      calculatePosterior
        {| prevalence := p1; sensitivity := s; specificity := t |} = Fin q1 ->
      calculatePosterior
        {| prevalence := p2; sensitivity := s; specificity := t |} = Fin q2 ->
      q1 <= q2).
Proof.
  split.
  - intros p s1 s2 t q1 q2 Hp Hs1 Hs2 Ht Hle.
    apply calculatePosterior_le; unfold valid, bayes_numerator; simpl;
      try tauto; [|lra].
    destruct Hp as [Hp _].
    apply Qmult_le_compat_r; [|apply Qle_shift_div_l; lra].
    apply Qle_shift_div_l; [lra|].
    assert (E : s1 / 100 * 100 == s1) by field. rewrite E. assumption.
  - intros p1 p2 s t q1 q2 Hp1 Hp2 Hs Ht Hle.
    assert (Hdiv : p1 / 100 <= p2 / 100).
    { apply Qle_shift_div_l; [lra|].
      assert (E : p1 / 100 * 100 == p1) by field. rewrite E. assumption. }
    apply calculatePosterior_le; unfold valid, bayes_numerator; simpl;
      try tauto.
    + destruct Hs as [Hs _].
      assert (0 <= s / 100) by (apply Qle_shift_div_l; lra). nra.
    + destruct Ht as [_ Ht].
      assert (t / 100 <= 1) by (apply Qle_shift_div_r; lra). nra.
Qed.

Lemma calculatePosterior_monotone_witness :
  (exists q1 q2,
      calculatePosterior
        {| prevalence := 1; sensitivity := 90; specificity := 95 |} = Fin q1 /\
      calculatePosterior
        {| prevalence := 1; sensitivity := 95; specificity := 95 |} = Fin q2 /\
      q1 <= q2) /\
  (exists q1 q2,
      calculatePosterior
        {| prevalence := 1; sensitivity := 95; specificity := 95 |} = Fin q1 /\
      calculatePosterior
        {| prevalence := 2; sensitivity := 95; specificity := 95 |} = Fin q2 /\
      q1 <= q2).
Proof.
  split.
  - eexists; eexists. split; [reflexivity|]. split; [reflexivity|].
    apply (proj1 calculatePosterior_monotone 1 90 95 95);
      unfold percent; try lra; reflexivity.
  - eexists; eexists. split; [reflexivity|]. split; [reflexivity|].
    apply (proj2 calculatePosterior_monotone 1 2 95 95);
      unfold percent; try lra; reflexivity.
Defined.

(** *** The population of 10,000 *)

(** C8: at prevalence 1, sensitivity 95, specificity 95 the posterior is
    within 1e-3 of 0.1601, and of the 10000 people 100 are diseased, 95
    true positives, 495 false positives, 9405 true negatives and 5 false
    negatives. *)
Theorem scenario_1_95_95 :
  let this := {| prevalence := 1; sensitivity := 95; specificity := 95 |} in
  (exists q,
      calculatePosterior this = Fin q /\
      Qabs (q - (1601 # 10000)) < 1 # 1000) /\
  let stats := calculatePopulationStats this in
  total stats = 10000%Z /\
  diseased stats = 100%Z /\
  true_positives stats = 95%Z /\
  false_positives stats = 495%Z /\
  true_negatives stats = 9405%Z /\
  false_negatives stats = 5%Z.
Proof.
  cbv zeta. split.
  - eexists. split; [reflexivity|]. reflexivity.
  - repeat split.
Qed.

(** C10: for prevalence, sensitivity and specificity in [0,100], the four
    cells of the confusion matrix add up to the population exactly:
    true positives + false negatives + true negatives + false positives
    = 10000. *)
Theorem confusion_matrix_total (this : MedicalTestCalculator) :
  valid this ->
  let stats := calculatePopulationStats this in
  (true_positives stats + false_negatives stats
   + true_negatives stats + false_positives stats = 10000)%Z.
Proof.
  intros _. unfold calculatePopulationStats. cbn [true_positives
    false_negatives true_negatives false_positives]. lia.
Qed.

Lemma confusion_matrix_total_witness :
  valid {| prevalence := 37 # 10; sensitivity := 333 # 10;
           specificity := 871 # 10 |} /\
  let stats :=
    calculatePopulationStats
      {| prevalence := 37 # 10; sensitivity := 333 # 10;
         specificity := 871 # 10 |} in
  (true_positives stats + false_negatives stats
   + true_negatives stats + false_positives stats = 10000)%Z.
Proof.
  assert (Hv : valid {| prevalence := 37 # 10; sensitivity := 333 # 10;
                        specificity := 871 # 10 |})
    by (unfold valid, percent; simpl; lra).
  split; [exact Hv|].
  exact (confusion_matrix_total _ Hv).
Defined.

End MedicalTestTheory.

Module MCMCTheory.

Import MCMC.
Local Open Scope R_scope.

(** *** The loops of the charts *)

(** With a positive step the loop ends as soon as [x] has passed [hi]. *)
Lemma for_x_returns (k : nat) (x hi step : R) :
  0 < step -> hi < x + INR k * step ->
  exists l, for_x (S k) x hi step = Some l.
Proof.
  intros Hs. revert x. induction k as [|k IH]; intros x Hx.
  - simpl in *. destruct (Rle_dec x hi); [lra|]. now exists [].
  - cbn [for_x]. destruct (Rle_dec x hi); [|now exists []].
    destruct (IH (x + step)) as [l Hl].
    + rewrite S_INR in Hx. lra.
    + cbn [for_x] in Hl. rewrite Hl. now eexists.
Qed.

(** With the step 0 it never ends: no amount of fuel is enough. *)
Lemma for_x_hangs (fuel : nat) (x hi : R) :
  x <= hi -> for_x fuel x hi 0 = None.
Proof.
  intros Hx. induction fuel as [|fuel IH]; [reflexivity|].
  cbn [for_x]. destruct (Rle_dec x hi); [|contradiction].
  rewrite Rplus_0_r, IH. reflexivity.
Qed.

Lemma curve_loop_returns_iff (lo hi : R) :
  curve_loop_returns lo hi = true <-> lo <> hi.
Proof.
  unfold curve_loop_returns. split.
  - intros H E. subst hi.
    replace ((lo - lo) / 100) with 0 in H by lra.
    rewrite for_x_hangs in H by lra. discriminate.
  - intros Hne. destruct (Rle_dec lo hi) as [Hle | Hgt].
    + destruct (for_x_returns 101 lo hi ((hi - lo) / 100)) as [l Hl].
      * lra.
      * replace (INR 101) with 101 by (simpl; lra). lra.
      * now rewrite Hl.
    + cbn [for_x]. destruct (Rle_dec lo hi); [contradiction|reflexivity].
Qed.

Lemma extent_constant (v : R) (l : list R) :
  Forall (eq v) l ->
  fold_left Rmin l v = v /\ fold_left Rmax l v = v.
Proof.
  induction 1 as [|x l <- _ [IH1 IH2]]; [now split|].
  cbn [fold_left]. rewrite Rmin_left, Rmax_left by lra. now split.
Qed.

(** The redrawing returns unless [targetStd] is 0, or there are samples
    and [proposalStd] is 0, or there are ten or more samples whose minimum
    and maximum coincide. *)
Lemma updateAll_returns_iff (this : MCMC1D) :
  updateAll_returns this = true <->
  targetStd this <> 0 /\
  (samples this <> [] -> proposalStd this <> 0) /\
  ((10 <= length (samples this))%nat ->
   exists lo hi, d3_extent (samples this) = Some (lo, hi) /\ lo <> hi).
Proof.
  unfold updateAll_returns, updateTargetChart_returns,
    updateHistogram_returns, updateProposalChart_returns.
  rewrite !andb_true_iff, curve_loop_returns_iff.
  assert (H1 : targetMean this - 4 * targetStd this
               <> targetMean this + 4 * targetStd this
               <-> targetStd this <> 0) by (split; intros H E; apply H; lra).
  assert (H2 : (if (length (samples this) =? 0)%nat then true
                else curve_loop_returns
                       (currentPosition this - 3 * proposalStd this)
                       (currentPosition this + 3 * proposalStd this)) = true
               <-> (samples this <> [] -> proposalStd this <> 0)).
  { destruct (samples this) as [|x l]; cbn [length Nat.eqb].
    - split; [intros _ H; now elim H | reflexivity].
    - rewrite curve_loop_returns_iff. split.
      + intros H _ E. apply H. lra.
      + intros H E. apply H; [discriminate | lra]. }
  assert (H3 : (if (length (samples this) <? 10)%nat then true
                else match d3_extent (samples this) with
                     | Some (lo, hi) => curve_loop_returns lo hi
                     | None => true
                     end) = true
               <-> ((10 <= length (samples this))%nat ->
                    exists lo hi,
                      d3_extent (samples this) = Some (lo, hi) /\ lo <> hi)).
  { destruct (length (samples this) <? 10)%nat eqn:E.
    - apply Nat.ltb_lt in E. split; [intros _ H; lia | reflexivity].
    - apply Nat.ltb_ge in E.
      destruct (samples this) as [|x l]; [simpl in E; lia|].
      cbn [d3_extent]. rewrite curve_loop_returns_iff. split.
      + intros H _. eexists; eexists. split; [reflexivity | exact H].
      + intros H. destruct (H E) as (lo & hi & [= <- <-] & Hne).
        exact Hne. }
  rewrite H1, H2, H3. tauto.
Qed.

(** Ten or more samples, all the same: the overlay of the histogram has
    the step 0 and the redrawing does not return. *)
Lemma updateAll_hangs_constant (this : MCMC1D) (v : R) :
  (10 <= length (samples this))%nat ->
  Forall (eq v) (samples this) ->
  updateAll_returns this = false.
Proof.
  intros Hlen Hall.
  destruct (updateAll_returns this) eqn:E; [|reflexivity].
  apply updateAll_returns_iff in E. destruct E as (_ & _ & H).
  destruct (H Hlen) as (lo & hi & Hext & Hne).
  destruct (samples this) as [|x l]; [discriminate|].
  inversion Hall as [|? ? Hx Hl]; subst.
  cbn [d3_extent] in Hext.
  destruct (extent_constant x l Hl) as [E1 E2].
  rewrite E1, E2 in Hext. injection Hext as <- <-. now elim Hne.
Qed.

Section SamplerTheory.

Context {math : JSMath}.

(** *** The running flag *)

Lemma animate_running this u1 u2 :
  isRunning this = true ->
  animate this u1 u2
  = if updateAll_returns (mcmcStep this u1 u2)
    then Some (mcmcStep this u1 u2) else None.
Proof. intros H. unfold animate. now rewrite H. Qed.

Lemma animate_paused this u1 u2 :
  isRunning this = false -> animate this u1 u2 = Some this.
Proof. intros H. unfold animate. now rewrite H. Qed.

Lemma animate_Some_inv this this' u1 u2 :
  animate this u1 u2 = Some this' ->
  this' = this \/ this' = mcmcStep this u1 u2.
Proof.
  unfold animate. destruct (negb (isRunning this)).
  - intros [= <-]. now left.
  - destruct (updateAll_returns _); [|discriminate].
    intros [= <-]. now right.
Qed.

Lemma startSampling_Some_inv this this' u1 u2 :
  startSampling this u1 u2 = Some this' ->
  this' = mcmcStep (set_isRunning true this) u1 u2.
Proof.
  unfold startSampling, animate. cbn [isRunning set_isRunning negb].
  destruct (updateAll_returns _); [|discriminate]. now intros [= <-].
Qed.

(** *** One step *)

(** The step, case by case. *)
Lemma mcmcStep_cases this u1 u2 :
  let proposed := proposePosition this u1 in
  mcmcStep this u1 u2
  = if acceptProposal this (currentPosition this) proposed u2
    then set_samples (samples this ++ [proposed])
           (set_acceptedSamples (S (acceptedSamples this))
              (set_currentPosition proposed
                 (set_proposedPosition proposed this)))
    else set_samples (samples this ++ [currentPosition this])
           (set_proposedPosition proposed this).
Proof.
  cbv zeta. unfold mcmcStep.
  change (acceptProposal (set_proposedPosition (proposePosition this u1) this)
            (currentPosition
               (set_proposedPosition (proposePosition this u1) this))
            (proposedPosition
               (set_proposedPosition (proposePosition this u1) this)) u2)
    with (acceptProposal this (currentPosition this)
            (proposePosition this u1) u2).
  destruct (acceptProposal this (currentPosition this)
              (proposePosition this u1) u2); reflexivity.
Qed.

Lemma mcmcStep_samples this u1 u2 :
  samples (mcmcStep this u1 u2)
  = samples this ++ [currentPosition (mcmcStep this u1 u2)].
Proof. unfold mcmcStep. destruct (acceptProposal _ _ _ _); reflexivity. Qed.

Lemma mcmcStep_acceptedSamples this u1 u2 :
  acceptedSamples (mcmcStep this u1 u2) = acceptedSamples this \/
  acceptedSamples (mcmcStep this u1 u2) = S (acceptedSamples this).
Proof.
  unfold mcmcStep. destruct (acceptProposal _ _ _ _); [right | left];
    reflexivity.
Qed.

Lemma mcmcStep_counted this u1 u2 :
  counted this -> counted (mcmcStep this u1 u2).
Proof.
  unfold counted. intros H.
  destruct (mcmcStep_acceptedSamples this u1 u2) as [-> | ->];
    rewrite mcmcStep_samples, length_app; cbn [length]; lia.
Qed.

Lemma animate_counted this this' u1 u2 :
  animate this u1 u2 = Some this' -> counted this -> counted this'.
Proof.
  intros Ha H. destruct (animate_Some_inv _ _ _ _ Ha) as [-> | ->];
    [assumption | now apply mcmcStep_counted].
Qed.

Lemma reachable_counted this : reachable this -> counted this.
Proof.
  induction 1; try assumption.
  - unfold counted. simpl. lia.
  - unfold counted. simpl. lia.
  - now apply mcmcStep_counted.
  - eapply animate_counted; eassumption.
  - apply startSampling_Some_inv in H0. subst this'.
    now apply mcmcStep_counted.
Qed.

(** C2: every MCMC step, which is what [animate] performs on a running
    sampler before it redraws, appends exactly one element to [samples],
    the position after the step, and raises [acceptedSamples] by 0 or 1;
    hence [acceptedSamples <= samples.length] in every state reached from
    the constructed or a reset state by steps and resets (and by the other
    handlers of the page). *)
Theorem mcmcStep_records_one_sample :
  (forall this u1 u2,
      animate this u1 u2
      = if isRunning this
        then if updateAll_returns (mcmcStep this u1 u2)
             then Some (mcmcStep this u1 u2) else None
        else Some this) /\
  (forall this u1 u2,
      let this' := mcmcStep this u1 u2 in
      samples this' = samples this ++ [currentPosition this'] /\
      length (samples this') = S (length (samples this)) /\
      (acceptedSamples this' = acceptedSamples this \/
       acceptedSamples this' = S (acceptedSamples this))) /\
  (forall this,
      reachable this ->
      (acceptedSamples this <= length (samples this))%nat).
Proof.
  split; [|split].
  - intros this u1 u2. unfold animate. now destruct (isRunning this).
  - intros this u1 u2. cbv zeta. split; [apply mcmcStep_samples|]. split.
    + rewrite mcmcStep_samples, length_app. cbn [length]. lia.
    + apply mcmcStep_acceptedSamples.
  - exact reachable_counted.
Qed.

End SamplerTheory.

Lemma mcmcStep_records_one_sample_witness :
  let this :=
    mcmcStep (math := flushing_math)
      (resetSampling (mcmcStep (math := flushing_math) constructor 0.5 0.3))
      0.2 0.9 in
  reachable (math := flushing_math) this /\
  (acceptedSamples this <= length (samples this))%nat.
Proof.
  cbv zeta.
  assert (H : reachable (math := flushing_math)
                (mcmcStep (math := flushing_math)
                   (resetSampling
                      (mcmcStep (math := flushing_math) constructor 0.5 0.3))
                   0.2 0.9))
    by (apply reach_step, reach_reset_any).
  split; [exact H|].
  exact (proj2 (proj2 (mcmcStep_records_one_sample (math := flushing_math)))
           _ H).
Defined.

(** *** Reset *)

(** C9: after [resetSampling], whatever the state before, [samples] is
    empty, [acceptedSamples] is 0, and [currentPosition] and
    [proposedPosition] are both 0.0. *)
Theorem resetSampling_clears (this : MCMC1D) :
  let this' := resetSampling this in
  samples this' = [] /\
  acceptedSamples this' = 0%nat /\
  currentPosition this' = 0 /\
  proposedPosition this' = 0.
Proof. cbv zeta. simpl. repeat split; lra. Qed.

Lemma resetSampling_rest (this : MCMC1D) :
  let this' := resetSampling this in
  isRunning this' = false /\
  proposalStd this' = proposalStd this /\
  targetMean this' = targetMean this /\
  targetStd this' = targetStd this /\
  animationSpeed this' = animationSpeed this.
Proof. cbv zeta. simpl. repeat split. Qed.

(** The redrawing at the end of [resetSampling()] returns unless
    [targetStd] is 0. *)
Lemma resetSampling_redraw_returns (this : MCMC1D) :
  updateAll_returns (resetSampling this) = true <-> targetStd this <> 0.
Proof.
  rewrite updateAll_returns_iff. cbn [resetSampling targetStd samples
    pauseSampling set_isRunning set_currentPosition set_proposedPosition
    set_samples set_acceptedSamples length]. split.
  - tauto.
  - intros H. split; [exact H|]. split; [intros E; now elim E | lia].
Qed.

(** *** The target density *)

Lemma sqrt_2PI_pos : 0 < sqrt (2 * PI).
Proof. apply sqrt_lt_R0. pose proof PI_RGT_0. lra. Qed.

Lemma gaussian_density_pos mean std x :
  0 < std -> 0 < gaussian_density mean std x.
Proof.
  intros Hs. unfold gaussian_density.
  apply Rmult_lt_0_compat; [|apply exp_pos].
  apply Rinv_0_lt_compat, Rmult_lt_0_compat; [assumption|apply sqrt_2PI_pos].
Qed.

Lemma Rltb_true_iff a b : Rltb a b = true <-> a < b.
Proof. unfold Rltb. destruct (Rlt_dec a b); split; auto; discriminate. Qed.

Lemma Reqb_true_iff a b : Reqb a b = true <-> a = b.
Proof. unfold Reqb. destruct (Req_dec_T a b); split; auto; discriminate. Qed.

(** The exponent of the density. *)
Lemma density_exponent (std mean x : R) :
  0 < std ->
  -0.5 * (x - mean) ^ 2 / (std * std) = - ((x - mean) ^ 2 / (2 * std ^ 2)).
Proof.
  intros Hs. replace (-0.5) with (- (1 / 2)) by lra. field. lra.
Qed.

Lemma exponent_nonpos (std mean x : R) :
  0 < std -> - ((x - mean) ^ 2 / (2 * std ^ 2)) <= 0.
Proof.
  intros Hs.
  assert (0 <= (x - mean) ^ 2 / (2 * std ^ 2)).
  { apply Rmult_le_pos; [apply pow2_ge_0|].
    left. apply Rinv_0_lt_compat. nra. }
  lra.
Qed.

Lemma near_exponent (this : MCMC1D) (x : R) :
  0 < targetStd this -> near this x ->
  -708 <= - ((x - targetMean this) ^ 2 / (2 * targetStd this ^ 2)).
Proof.
  intros Hs Hn. unfold near in Hn.
  apply pow_maj_Rabs with (n := 2%nat) in Hn.
  assert (Hq : (x - targetMean this) ^ 2 / (2 * targetStd this ^ 2) <= 708).
  { apply (Rmult_le_reg_r (2 * targetStd this ^ 2)); [nra|].
    unfold Rdiv. rewrite Rmult_assoc, Rinv_l by nra. nra. }
  lra.
Qed.

Lemma far_exponent (this : MCMC1D) (x : R) :
  0 < targetStd this -> far this x ->
  - ((x - targetMean this) ^ 2 / (2 * targetStd this ^ 2)) <= -746.
Proof.
  intros Hs Hf. unfold far in Hf.
  assert (Hsq : (39 * targetStd this) ^ 2 <= (x - targetMean this) ^ 2).
  { rewrite <- (pow2_abs (x - targetMean this)).
    apply pow_incr. split; [nra | exact Hf]. }
  assert (Hq : 746 <= (x - targetMean this) ^ 2 / (2 * targetStd this ^ 2)).
  { apply (Rmult_le_reg_r (2 * targetStd this ^ 2)); [nra|].
    unfold Rdiv. rewrite Rmult_assoc, Rinv_l by nra. nra. }
  lra.
Qed.

Section DensityTheory.

Context {math : JSMath}.

Lemma targetDensity_nonneg this x :
  0 < targetStd this -> 0 <= targetDensity this x.
Proof.
  intros Hs. unfold targetDensity. cbv zeta.
  rewrite density_exponent by assumption.
  destruct (Math_exp_unit _ (exponent_nonpos (targetStd this)
                               (targetMean this) x Hs)) as [H0 _].
  apply Rmult_le_pos; [exact H0|]. left.
  apply Rinv_0_lt_compat, sqrt_lt_R0. pose proof PI_RGT_0.
  apply Rmult_lt_0_compat; [lra | now apply Rmult_lt_0_compat].
Qed.

(** Within 37 standard deviations of the mean [targetDensity] is the
    density of N(targetMean, targetStd). *)
Lemma targetDensity_gaussian this x :
  0 < targetStd this -> near this x ->
  targetDensity this x
  = gaussian_density (targetMean this) (targetStd this) x.
Proof.
  intros Hs Hn. unfold targetDensity, gaussian_density. cbv zeta.
  pose proof sqrt_2PI_pos as H2.
  assert (E : sqrt (2 * PI * (targetStd this * targetStd this))
              = sqrt (2 * PI) * targetStd this).
  { rewrite sqrt_mult_alt by (pose proof PI_RGT_0; lra).
    rewrite sqrt_square by lra. reflexivity. }
  rewrite E, density_exponent by assumption.
  rewrite Math_exp_normal
    by (split; [now apply near_exponent | now apply exponent_nonpos]).
  field. split; lra.
Qed.

(** 39 standard deviations or more from the mean it is 0. *)
Lemma targetDensity_far this x :
  0 < targetStd this -> far this x -> targetDensity this x = 0.
Proof.
  intros Hs Hf. unfold targetDensity. cbv zeta.
  rewrite density_exponent by assumption.
  rewrite Math_exp_underflow by (now apply far_exponent).
  unfold Rdiv. apply Rmult_0_l.
Qed.

Lemma targetDensity_pos this x :
  0 < targetStd this -> near this x -> 0 < targetDensity this x.
Proof.
  intros Hs Hn. rewrite targetDensity_gaussian by assumption.
  now apply gaussian_density_pos.
Qed.

(** *** The acceptance test *)

Lemma num_div_number (a b : R) : b <> 0 -> num_div a b = Num (a / b).
Proof.
  intros Hb. unfold num_div. destruct (Reqb b 0) eqn:E; [|reflexivity].
  apply Reqb_true_iff in E. contradiction.
Qed.

Lemma num_div_zero_zero : num_div 0 0 = NotANumber.
Proof.
  unfold num_div.
  rewrite (proj2 (Reqb_true_iff 0 0) eq_refl). reflexivity.
Qed.

Lemma num_div_positive_zero (a : R) : 0 < a -> num_div a 0 = Infinity true.
Proof.
  intros Ha. unfold num_div.
  rewrite (proj2 (Reqb_true_iff 0 0) eq_refl).
  destruct (Reqb a 0) eqn:E; [apply Reqb_true_iff in E; lra|].
  now rewrite (proj2 (Rltb_true_iff 0 a) Ha).
Qed.

(** The test [u < Math.min(1, p / c)] on densities, case by case. *)
Lemma acceptance_test (p c u : R) :
  (0 < c ->
   (num_lt u (Math_min 1 (num_div p c)) = true <-> u < Rmin 1 (p / c))) /\
  (c = 0 -> p = 0 -> num_lt u (Math_min 1 (num_div p c)) = false) /\
  (c = 0 -> 0 < p ->
   (num_lt u (Math_min 1 (num_div p c)) = true <-> u < 1)).
Proof.
  repeat split.
  - rewrite num_div_number by lra. cbn [Math_min num_lt].
    apply Rltb_true_iff.
  - rewrite num_div_number by lra. cbn [Math_min num_lt].
    apply Rltb_true_iff.
  - intros -> ->. now rewrite num_div_zero_zero.
  - subst c. rewrite num_div_positive_zero by assumption.
    cbn [Math_min num_lt]. apply Rltb_true_iff.
  - subst c. rewrite num_div_positive_zero by assumption.
    cbn [Math_min num_lt]. apply Rltb_true_iff.
Qed.

(** Where both densities are normal numbers the test is the Metropolis
    test on the Gaussian densities. *)
Lemma acceptProposal_near this current proposed u :
  0 < targetStd this -> near this current -> near this proposed ->
  acceptProposal this current proposed u = true <->
  u < Rmin 1
        (gaussian_density (targetMean this) (targetStd this) proposed
         / gaussian_density (targetMean this) (targetStd this) current).
Proof.
  intros Hs Hnc Hnp.
  pose proof (targetDensity_pos this current Hs Hnc) as Hpos.
  rewrite <- (targetDensity_gaussian this proposed) by assumption.
  rewrite <- (targetDensity_gaussian this current) by assumption.
  exact (proj1 (acceptance_test (targetDensity this proposed)
                  (targetDensity this current) u) Hpos).
Qed.



End DensityTheory.

Lemma sqrt_12_sq : sqrt 12 * sqrt 12 = 12.
Proof. apply sqrt_sqrt. lra. Qed.

Lemma sqrt_12_bounds : 3 < sqrt 12 < 4.
Proof.
  assert (H3 : sqrt (3 * 3) = 3) by (apply sqrt_square; lra).
  assert (H4 : sqrt (4 * 4) = 4) by (apply sqrt_square; lra).
  assert (sqrt (3 * 3) < sqrt 12) by (apply sqrt_lt_1; lra).
  assert (sqrt 12 < sqrt (4 * 4)) by (apply sqrt_lt_1; lra).
  lra.
Qed.

Lemma exp_le_mono (x y : R) : x <= y -> exp x <= exp y.
Proof.
  intros [H | ->]; [left; now apply exp_increasing | right; reflexivity].
Qed.

(** The normalising constant cancels in the ratio of two densities. *)
Lemma gaussian_density_ratio (mean std x y : R) :
  0 < std ->
  gaussian_density mean std y / gaussian_density mean std x
  = exp (((x - mean) ^ 2 - (y - mean) ^ 2) / (2 * std ^ 2)).
Proof.
  intros Hs. unfold gaussian_density.
  pose proof sqrt_2PI_pos as H2.
  replace (((x - mean) ^ 2 - (y - mean) ^ 2) / (2 * std ^ 2))
    with (- ((y - mean) ^ 2 / (2 * std ^ 2))
          + - - ((x - mean) ^ 2 / (2 * std ^ 2)))
    by (field; lra).
  rewrite exp_plus, (exp_Ropp (- _)).
  field. repeat split; try lra.
  apply Rgt_not_eq, exp_pos.
Qed.

(** A ratio of densities towards the mean is at least 1. *)
Lemma gaussian_density_ratio_uphill (mean std x y : R) :
  0 < std -> (y - mean) ^ 2 <= (x - mean) ^ 2 ->
  1 <= gaussian_density mean std y / gaussian_density mean std x.
Proof.
  intros Hs Hsq. rewrite gaussian_density_ratio by assumption.
  rewrite <- exp_0. apply exp_le_mono.
  apply Rmult_le_pos; [lra|]. left. apply Rinv_0_lt_compat. nra.
Qed.



(** *** The proposal *)

Lemma proposePosition_perturbation this u :
  proposePosition this u
  = currentPosition this + perturbation (proposalStd this) u.
Proof. reflexivity. Qed.

(** The integral of a continuous function with a known antiderivative. *)
Lemma RiemannInt_antiderivative (f F : R -> R) (a b : R)
      (pr : Riemann_integrable f a b) :
  (forall x, derivable_pt_lim F x (f x)) ->
  continuity f ->
  RiemannInt pr = F b - F a.
Proof.
  intros HF Hf.
  set (dF := fun x => exist (fun l => derivable_pt_abs F x l) (f x) (HF x)
             : derivable_pt F x).
  assert (Hc : continuity (derive F dF)) by exact Hf.
  exact (@FTC_Riemann (@mkC1 F dF Hc) a b pr).
Qed.

Lemma power_derivative (k c x : R) (n : nat) :
  derivable_pt_lim (fun u => k * (u - c) ^ S n) x
                   (INR (S n) * k * (x - c) ^ n).
Proof.
  assert (H : derivable_pt_lim (fun u => u - c) x 1).
  { replace 1 with (1 - 0) by ring.
    apply (derivable_pt_lim_minus id (fun _ => c)).
    - apply derivable_pt_lim_id.
    - apply derivable_pt_lim_const. }
  pose proof (derivable_pt_lim_comp (fun u => u - c) (fun y => y ^ S n) x _ _
                H (derivable_pt_lim_pow (x - c) (S n))) as Hn.
  pose proof (derivable_pt_lim_scal _ k x _ Hn) as Hk.
  replace (INR (S n) * k * (x - c) ^ n)
    with (k * (INR (S n) * (x - c) ^ Init.Nat.pred (S n) * 1))
    by (cbn [Init.Nat.pred]; ring).
  exact Hk.
Qed.

Lemma perturbation_mean_zero scale : perturbation_mean scale = 0.
Proof.
  unfold perturbation_mean.
  rewrite (RiemannInt_antiderivative (perturbation scale)
             (fun u => scale * sqrt 12 * (u - 0.5) ^ 2)).
  - simpl. lra.
  - intros x.
    replace (perturbation scale x)
      with (INR 2 * (scale * sqrt 12) * (x - 0.5) ^ 1)
      by (unfold perturbation; simpl; ring).
    apply power_derivative.
  - unfold perturbation. reg.
Qed.

Lemma perturbation_second_moment_value scale :
  perturbation_second_moment scale = 4 * scale ^ 2.
Proof.
  unfold perturbation_second_moment.
  rewrite (RiemannInt_antiderivative (fun u => perturbation scale u ^ 2)
             (fun u => 16 * scale ^ 2 * (u - 0.5) ^ 3)).
  - simpl. lra.
  - intros x.
    replace (perturbation scale x ^ 2)
      with (INR 3 * (16 * scale ^ 2) * (x - 0.5) ^ 2).
    + apply power_derivative.
    + unfold perturbation.
      transitivity (4 * scale ^ 2 * (x - 0.5) ^ 2 * (sqrt 12 * sqrt 12));
        [|simpl; ring].
      rewrite sqrt_12_sq. simpl. ring.
  - unfold perturbation. reg.
Qed.

Lemma perturbation_variance_value scale :
  perturbation_variance scale = 4 * scale ^ 2.
Proof.
  unfold perturbation_variance.
  rewrite perturbation_second_moment_value, perturbation_mean_zero. ring.
Qed.

(** C5: [proposePosition] returns
    [position + (2u - 1) * scale * sqrt 12] for the uniform draw [u], a
    perturbation uniform on [-1,1) times [scale * sqrt 12]; its mean over
    [u] in [0,1) is 0, and its second moment and its variance are
    [4 * scale ^ 2], four times the [scale ^ 2] of the claim. *)
Theorem proposal_variance (this : MCMC1D) :
  (forall u,
      proposePosition this u
      = currentPosition this + (2 * u - 1) * proposalStd this * sqrt 12) /\
  perturbation_mean (proposalStd this) = 0 /\
  perturbation_second_moment (proposalStd this) = 4 * proposalStd this ^ 2 /\
  perturbation_variance (proposalStd this) = 4 * proposalStd this ^ 2.
Proof.
  split; [|split; [|split]].
  - intros u. unfold proposePosition.
    replace ((u - 0.5) * 2) with (2 * u - 1) by lra. reflexivity.
  - apply perturbation_mean_zero.
  - apply perturbation_second_moment_value.
  - apply perturbation_variance_value.
Qed.

(** With the slider at its initial value 0.5 the proposal has variance 1,
    while the square of [proposalStd] is 0.25. *)
Lemma proposal_variance_default :
  perturbation_variance (proposalStd constructor) = 1 /\
  proposalStd constructor ^ 2 = 0.25 /\
  perturbation_variance (proposalStd constructor)
  <> proposalStd constructor ^ 2.
Proof.
  rewrite perturbation_variance_value. simpl. repeat split; lra.
Qed.

(** Without the factor 2 the second moment is the square of the scale. *)
Lemma unit_width_second_moment scale :
  RiemannInt (unit_width_sq_integrable scale) = scale ^ 2.
Proof.
  rewrite (RiemannInt_antiderivative
             (fun u => unit_width_perturbation scale u ^ 2)
             (fun u => 4 * scale ^ 2 * (u - 0.5) ^ 3)).
  - simpl. lra.
  - intros x.
    replace (unit_width_perturbation scale x ^ 2)
      with (INR 3 * (4 * scale ^ 2) * (x - 0.5) ^ 2).
    + apply power_derivative.
    + unfold unit_width_perturbation.
      transitivity (scale ^ 2 * (x - 0.5) ^ 2 * (sqrt 12 * sqrt 12));
        [|simpl; ring].
      rewrite sqrt_12_sq. simpl. ring.
  - unfold unit_width_perturbation. reg.
Qed.

End MCMCTheory.

(** * Further properties of the calculator *)

Module MedicalTestViewTheory.

Import JS MedicalTest MedicalTestView MedicalTestTheory.
Local Open Scope Q_scope.

(** A numeric posterior of a valid input is the closed form over a
    positive denominator. *)
Lemma calculatePosterior_Fin_inv this q :
  valid this ->
  calculatePosterior this = Fin q ->
  0 < bayes_denominator this /\
  q == bayes_numerator this / bayes_denominator this.
Proof.
  intros Hv H. rewrite calculatePosterior_jsdiv in H.
  apply jsdiv_Fin_inv in H. destruct H as [Hd ->].
  rewrite operands_denominator in Hd.
  pose proof (denominator_nonneg this Hv) as Hn.
  split; [lra|]. now rewrite operands_numerator, operands_denominator.
Qed.

(** X1: for inputs in [0,100] a numeric posterior lies between 0 and 1,
    inside the y axis [0, 1] of the probability chart, as does the prior. *)
Theorem posterior_unit_interval (this : MedicalTestCalculator) (q : Q) :
  valid this ->
  snd (updateProbabilityChart this) = Fin q ->
  0 <= q <= 1 /\ 0 <= fst (updateProbabilityChart this) <= 1.
Proof.
  intros Hv H. cbn [updateProbabilityChart fst snd] in *.
  destruct (calculatePosterior_Fin_inv this q Hv H) as [Hd ->].
  pose proof (numerator_nonneg this Hv) as Hn.
  pose proof (false_positive_term_nonneg this Hv) as Hf.
  assert (Hle : bayes_numerator this <= bayes_denominator this)
    by (unfold bayes_denominator, bayes_numerator in *; lra).
  destruct Hv as ([Hp0 Hp1] & _). repeat split.
  - apply Qle_shift_div_l; lra.
  - apply Qle_shift_div_r; lra.
  - apply Qle_shift_div_l; lra.
  - apply Qle_shift_div_r; lra.
Qed.

Lemma posterior_unit_interval_witness :
  valid constructor /\
  0 <= (95 # 590) <= 1 /\ 0 <= fst (updateProbabilityChart constructor) <= 1.
Proof.
  assert (Hv : valid constructor) by (unfold valid, percent; simpl; lra).
  split; [exact Hv|].
  assert (E : snd (updateProbabilityChart constructor)
              = Fin ((95 # 100) * (1 # 100)
                     / ((95 # 100) * (1 # 100)
                        + (5 # 100) * (1 - (1 # 100)))))
    by reflexivity.
  pose proof (posterior_unit_interval constructor _ Hv E) as [[H0 H1] H2].
  split; [|exact H2]. split.
  - refine (Qle_trans _ _ _ H0 _). apply Qle_bool_imp_le. reflexivity.
  - refine (Qle_trans _ _ _ _ H1). apply Qle_bool_imp_le. reflexivity.
Defined.

(** X2: a perfect test (sensitivity and specificity 100) on a positive
    prevalence gives the posterior 1 exactly. *)
Theorem posterior_perfect_test (this : MedicalTestCalculator) :
  valid this ->
  0 < prevalence this ->
  sensitivity this == 100 ->
  specificity this == 100 ->
  exists q, calculatePosterior this = Fin q /\ q == 1.
Proof.
  intros Hv Hp Hs Ht.
  assert (Hd : bayes_denominator this == prevalence this / 100).
  { unfold bayes_denominator. rewrite Hs, Ht. field. }
  assert (Hpos : 0 < prevalence this / 100)
    by (apply Qlt_shift_div_l; lra).
  assert (Hn : ~ bayes_denominator this == 0) by (rewrite Hd; lra).
  destruct (calculatePosterior_defined this Hn) as (q & Hq & E).
  exists q. split; [assumption|].
  rewrite E, Hd. unfold bayes_numerator. rewrite Hs.
  field. intros H0. rewrite H0 in Hp. lra.
Qed.

Lemma posterior_perfect_test_witness :
  exists q,
    calculatePosterior
      {| prevalence := 50; sensitivity := 100; specificity := 100 |} = Fin q /\
    q == 1.
Proof.
  apply (posterior_perfect_test
           {| prevalence := 50; sensitivity := 100; specificity := 100 |}).
  - unfold valid, percent. simpl. lra.
  - reflexivity.
  - reflexivity.
  - reflexivity.
Defined.

(** X3: among inputs in [0,100] at which the posterior is a number, the
    posterior does not decrease when the specificity grows, prevalence and
    sensitivity fixed. *)
Theorem posterior_monotone_specificity (p s t1 t2 q1 q2 : Q) :
  percent p -> percent s -> percent t1 -> percent t2 ->
  t1 <= t2 ->
  calculatePosterior
    {| prevalence := p; sensitivity := s; specificity := t1 |} = Fin q1 ->
  calculatePosterior
    {| prevalence := p; sensitivity := s; specificity := t2 |} = Fin q2 ->
  q1 <= q2.
Proof.
  intros Hp Hs Ht1 Ht2 Hle.
  assert (Hdiv : t1 / 100 <= t2 / 100).
  { apply Qle_shift_div_l; [lra|].
    assert (E : t1 / 100 * 100 == t1) by field. rewrite E. assumption. }
  apply calculatePosterior_le; unfold valid, bayes_numerator; simpl;
    try tauto; [lra|].
  destruct Hp as [_ Hp].
  assert (p / 100 <= 1) by (apply Qle_shift_div_r; lra). nra.
Qed.

Lemma posterior_monotone_specificity_witness :
  exists q1 q2,
    calculatePosterior
      {| prevalence := 1; sensitivity := 95; specificity := 90 |} = Fin q1 /\
    calculatePosterior
      {| prevalence := 1; sensitivity := 95; specificity := 95 |} = Fin q2 /\
    q1 <= q2.
Proof.
  eexists; eexists. split; [reflexivity|]. split; [reflexivity|].
  apply (posterior_monotone_specificity 1 95 90 95);
    unfold percent; try lra; reflexivity.
Defined.

(** X4: for inputs in [0,100] with a numeric posterior, a positive result
    raises the probability of disease above the prior when
    sensitivity + specificity >= 100, and lowers it below the prior when
    sensitivity + specificity <= 100. *)
Theorem posterior_versus_prior (this : MedicalTestCalculator) (q : Q) :
  valid this ->
  calculatePosterior this = Fin q ->
  (100 <= sensitivity this + specificity this -> prior this <= q) /\
  (sensitivity this + specificity this <= 100 -> q <= prior this).
Proof.
  intros Hv H.
  destruct (calculatePosterior_Fin_inv this q Hv H) as [Hd ->].
  destruct Hv as ([Hp0 Hp1] & [Hs0 Hs1] & [Ht0 Ht1]).
  unfold prior, bayes_numerator. unfold bayes_denominator in *.
  set (p := prevalence this / 100) in *.
  set (a := sensitivity this / 100) in *.
  set (c := specificity this / 100) in *.
  assert (Hp : 0 <= p <= 1).
  { unfold p. split; [apply Qle_shift_div_l | apply Qle_shift_div_r]; lra. }
  assert (Hac : a + c == (sensitivity this + specificity this) / 100)
    by (unfold a, c; field).
  assert (Hpp : 0 <= p * (1 - p)) by (apply Qmult_le_0_compat; lra).
  split; intros Hsum.
  - assert (H1 : 0 <= a + c - 1)
      by (rewrite Hac; assert (1 <= (sensitivity this + specificity this) / 100)
            by (apply Qle_shift_div_l; lra); lra).
    pose proof (Qmult_le_0_compat _ _ Hpp H1) as Hprod.
    apply Qle_shift_div_l; [assumption|]. lra.
  - assert (H1 : 0 <= 1 - (a + c))
      by (rewrite Hac; assert ((sensitivity this + specificity this) / 100 <= 1)
            by (apply Qle_shift_div_r; lra); lra).
    pose proof (Qmult_le_0_compat _ _ Hpp H1) as Hprod.
    apply Qle_shift_div_r; [assumption|]. lra.
Qed.

Lemma posterior_versus_prior_witness :
  prior constructor <= 95 # 590.
Proof.
  assert (Hv : valid constructor) by (unfold valid, percent; simpl; lra).
  assert (E : calculatePosterior constructor
              = Fin ((95 # 100) * (1 # 100)
                     / ((95 # 100) * (1 # 100)
                        + (5 # 100) * (1 - (1 # 100)))))
    by reflexivity.
  destruct (posterior_versus_prior constructor _ Hv E) as [Hup _].
  assert (Hs : 100 <= sensitivity constructor + specificity constructor)
    by (simpl; lra).
  refine (Qle_trans _ _ _ (Hup Hs) _).
  apply Qle_bool_imp_le. reflexivity.
Defined.

(** *** Rounding *)

Lemma Math_round_inject (n : Z) : Math_round (inject_Z n) = n.
Proof.
  unfold Math_round.
  pose proof (Qfloor_le (inject_Z n + (1 # 2))) as Hlo.
  pose proof (Qlt_floor (inject_Z n + (1 # 2))) as Hhi.
  set (f := Qfloor (inject_Z n + (1 # 2))) in *. clearbody f.
  rewrite inject_Z_plus in Hhi. change (inject_Z 1) with 1 in Hhi.
  assert (H1 : inject_Z f < inject_Z n + 1) by lra.
  assert (H2 : inject_Z n < inject_Z f + 1) by lra.
  change 1 with (inject_Z 1) in H1, H2.
  rewrite <- inject_Z_plus in H1, H2.
  rewrite <- Zlt_Qlt in H1, H2. lia.
Qed.

Lemma Math_round_le (x y : Q) : x <= y -> (Math_round x <= Math_round y)%Z.
Proof. intros H. unfold Math_round. apply Qfloor_resp_le. lra. Qed.

Lemma Math_round_eq (x : Q) (n : Z) : x == inject_Z n -> Math_round x = n.
Proof.
  intros H. unfold Math_round. rewrite H. apply Math_round_inject.
Qed.

(** A share of a non-negative count by a percentage rounds to a count
    between 0 and the whole. *)
Lemma Math_round_share (n : Z) (x : Q) :
  (0 <= n)%Z -> percent x ->
  (0 <= Math_round (inject_Z n * x / 100) <= n)%Z.
Proof.
  intros Hn [H0 H1].
  assert (Hq : 0 <= inject_Z n) by (now rewrite (Zle_Qle 0 n) in Hn).
  assert (Hx : 0 <= x / 100 <= 1)
    by (split; [apply Qle_shift_div_l | apply Qle_shift_div_r]; lra).
  assert (E : inject_Z n * x / 100 == inject_Z n * (x / 100)) by field.
  split.
  - rewrite <- (Math_round_inject 0). apply Math_round_le.
    rewrite E. change (inject_Z 0) with 0.
    apply Qmult_le_0_compat; lra.
  - rewrite <- (Math_round_inject n) at 2. apply Math_round_le.
    rewrite E.
    assert (H : 0 <= inject_Z n * (1 - x / 100))
      by (apply Qmult_le_0_compat; lra).
    lra.
Qed.

(** *** The population *)

(** X5: for inputs in [0,100] no count of the population is negative:
    the diseased are between 0 and 10000, the true positives between 0 and
    the diseased, the true negatives between 0 and the healthy, and the
    positives and negatives add up to the total. *)
Theorem population_counts_bounded (this : MedicalTestCalculator) :
  valid this ->
  let stats := calculatePopulationStats this in
  (0 <= diseased stats <= 10000 /\
   0 <= healthy stats <= 10000 /\
   0 <= true_positives stats <= diseased stats /\
   0 <= false_negatives stats <= diseased stats /\
   0 <= true_negatives stats <= healthy stats /\
   0 <= false_positives stats <= healthy stats /\
   total_positives stats + total_negatives stats = total stats)%Z.
Proof.
  intros (Hp & Hs & Ht). cbv zeta.
  unfold calculatePopulationStats.
  cbn [diseased healthy true_positives false_negatives true_negatives
       false_positives total_positives total_negatives total].
  pose proof (Math_round_share 10000 (prevalence this) ltac:(lia) Hp) as Hd.
  set (d := Math_round (inject_Z 10000 * prevalence this / 100)) in *.
  pose proof (Math_round_share d (sensitivity this) ltac:(lia) Hs) as Htp.
  pose proof (Math_round_share (10000 - d) (specificity this) ltac:(lia) Ht)
    as Htn.
  lia.
Qed.

Lemma population_counts_bounded_witness :
  let stats :=
    calculatePopulationStats
      {| prevalence := 37 # 10; sensitivity := 333 # 10;
         specificity := 871 # 10 |} in
  (0 <= true_positives stats <= diseased stats /\
   0 <= false_positives stats <= healthy stats)%Z.
Proof.
  cbv zeta.
  assert (Hv : valid {| prevalence := 37 # 10; sensitivity := 333 # 10;
                        specificity := 871 # 10 |})
    by (unfold valid, percent; simpl; lra).
  destruct (population_counts_bounded _ Hv) as (_ & _ & H1 & _ & _ & H2 & _).
  split; assumption.
Defined.

(** X6: the extreme settings show no impossible cell.  With sensitivity
    100 there is no false negative, with sensitivity 0 no true positive,
    with specificity 100 no false positive, with specificity 0 no true
    negative; with prevalence 0 nobody is diseased and with prevalence 100
    nobody is healthy. *)
Theorem population_extremes (this : MedicalTestCalculator) :
  let stats := calculatePopulationStats this in
  (sensitivity this == 100 -> false_negatives stats = 0%Z) /\
  (sensitivity this == 0 -> true_positives stats = 0%Z) /\
  (specificity this == 100 -> false_positives stats = 0%Z) /\
  (specificity this == 0 -> true_negatives stats = 0%Z) /\
  (prevalence this == 0 -> diseased stats = 0%Z) /\
  (prevalence this == 100 -> healthy stats = 0%Z).
Proof.
  cbv zeta. unfold calculatePopulationStats.
  cbn [diseased healthy true_positives false_negatives true_negatives
       false_positives].
  set (d := Math_round (inject_Z 10000 * prevalence this / 100)).
  repeat split; intros H.
  - assert (E : Math_round (inject_Z d * sensitivity this / 100) = d)
      by (apply Math_round_eq; rewrite H; field).
    rewrite E. lia.
  - apply (Math_round_eq _ 0). rewrite H. change (inject_Z 0) with 0. field.
  - assert (E : Math_round (inject_Z (10000 - d) * specificity this / 100)
                = (10000 - d)%Z)
      by (apply Math_round_eq; rewrite H; field).
    rewrite E. lia.
  - apply (Math_round_eq _ 0). rewrite H. change (inject_Z 0) with 0. field.
  - unfold d. apply (Math_round_eq _ 0). rewrite H. reflexivity.
  - assert (E : d = 10000%Z)
      by (unfold d; apply Math_round_eq; rewrite H; reflexivity).
    rewrite E. reflexivity.
Qed.

Lemma population_extremes_witness :
  false_negatives
    (calculatePopulationStats
       {| prevalence := 37 # 10; sensitivity := 100; specificity := 80 |})
  = 0%Z.
Proof.
  apply (population_extremes
           {| prevalence := 37 # 10; sensitivity := 100; specificity := 80 |}).
  reflexivity.
Defined.

(** *** The rectangle diagram *)

(** X7: for inputs in [0,100] the four rectangles tile the 300 by 200
    drawing area: two columns side by side whose widths add up to 300,
    each split into two rows whose heights add up to 200, no side negative,
    and the four areas add up to 60000. *)
Theorem rectangle_diagram_tiles (this : MedicalTestCalculator) :
  valid this ->
  let d := updateRectangleDiagram this in
  let tp := true_positive_rect d in
  let fn := false_negative_rect d in
  let fp := false_positive_rect d in
  let tn := true_negative_rect d in
  (rect_x tp == 0 /\ rect_x fn == 0 /\ rect_width fn == rect_width tp /\
   rect_x fp == rect_width tp /\ rect_x tn == rect_width tp /\
   rect_width tn == rect_width fp /\
   rect_width tp + rect_width fp == 300) /\
  (rect_y tp == 0 /\ rect_y fn == rect_height tp /\
   rect_height tp + rect_height fn == 200 /\
   rect_y fp == 0 /\ rect_y tn == rect_height fp /\
   rect_height fp + rect_height tn == 200) /\
  (0 <= rect_width tp /\ 0 <= rect_width fp /\
   0 <= rect_height tp /\ 0 <= rect_height fn /\
   0 <= rect_height fp /\ 0 <= rect_height tn) /\
  area tp + area fn + area fp + area tn == 60000.
Proof.
  intros ([Hp0 Hp1] & [Hs0 Hs1] & [Ht0 Ht1]). cbv zeta.
  unfold updateRectangleDiagram, area.
  cbn [true_positive_rect false_negative_rect false_positive_rect
       true_negative_rect rect_x rect_y rect_width rect_height].
  assert (Hp : 0 <= prevalence this / 100 <= 1)
    by (split; [apply Qle_shift_div_l | apply Qle_shift_div_r]; lra).
  assert (Hs : 0 <= sensitivity this / 100 <= 1)
    by (split; [apply Qle_shift_div_l | apply Qle_shift_div_r]; lra).
  assert (Ht : 0 <= specificity this / 100 <= 1)
    by (split; [apply Qle_shift_div_l | apply Qle_shift_div_r]; lra).
  set (p := prevalence this / 100) in *.
  set (a := sensitivity this / 100) in *.
  set (c := specificity this / 100) in *.
  repeat split; try reflexivity; try lra; ring.
Qed.

Lemma rectangle_diagram_tiles_witness :
  let d := updateRectangleDiagram constructor in
  rect_width (true_positive_rect d) + rect_width (false_positive_rect d)
  == 300 /\
  area (true_positive_rect d) + area (false_negative_rect d)
  + area (false_positive_rect d) + area (true_negative_rect d) == 60000.
Proof.
  cbv zeta.
  assert (Hv : valid constructor) by (unfold valid, percent; simpl; lra).
  destruct (rectangle_diagram_tiles constructor Hv)
    as ((_ & _ & _ & _ & _ & _ & Hw) & _ & _ & Ha).
  split; assumption.
Defined.

(** Division sees its operands up to a common positive factor. *)
Lemma jsdiv_scaled (k a b a' b' : Q) :
  0 < k -> a' == k * a -> b' == k * b ->
  jsnum_same (jsdiv a' b') (jsdiv a b).
Proof.
  intros Hk Ha Hb. unfold jsdiv.
  assert (Zb : b' == 0 <-> b == 0) by (rewrite Hb; split; intros H; nra).
  assert (Za : a' == 0 <-> a == 0) by (rewrite Ha; split; intros H; nra).
  assert (Sa : 0 <= a' <-> 0 <= a) by (rewrite Ha; split; intros H; nra).
  destruct (Qeq_bool b' 0) eqn:Eb', (Qeq_bool b 0) eqn:Eb.
  - destruct (Qeq_bool a' 0) eqn:Ea', (Qeq_bool a 0) eqn:Ea; simpl.
    + exact I.
    + apply Qeq_bool_iff, Za, Qeq_bool_iff in Ea'. congruence.
    + apply Qeq_bool_iff, Za, Qeq_bool_iff in Ea. congruence.
    + destruct (Qle_bool 0 a') eqn:La', (Qle_bool 0 a) eqn:La;
        try reflexivity.
      * apply Qle_bool_iff, Sa, Qle_bool_iff in La'. congruence.
      * apply Qle_bool_iff, Sa, Qle_bool_iff in La. congruence.
  - apply Qeq_bool_iff, Zb, Qeq_bool_iff in Eb'. congruence.
  - apply Qeq_bool_iff, Zb, Qeq_bool_iff in Eb. congruence.
  - simpl. rewrite Ha, Hb. field. split.
    + intros H. apply Qeq_bool_iff in H. congruence.
    + lra.
Qed.

(** X8: the diagram shows the posterior: the area of the true-positive
    rectangle over the area of the two positive rectangles is the value of
    [calculatePosterior], a number or [NaN] alike, whatever the inputs. *)
Theorem rectangle_diagram_posterior (this : MedicalTestCalculator) :
  let d := updateRectangleDiagram this in
  jsnum_same
    (jsdiv (area (true_positive_rect d))
           (area (true_positive_rect d) + area (false_positive_rect d)))
    (calculatePosterior this).
Proof.
  cbv zeta. rewrite calculatePosterior_jsdiv.
  apply (jsdiv_scaled 60000); [lra| |];
    unfold updateRectangleDiagram, area, posterior_operands;
    cbn [true_positive_rect false_positive_rect rect_width rect_height
         fst snd]; field.
Qed.

(** *** The insights *)

Lemma Qltb_true_iff (a b : Q) : Qltb a b = true <-> a < b.
Proof.
  unfold Qltb. rewrite negb_true_iff. split.
  - intros H. apply Qnot_le_lt. intros Hle.
    apply Qle_bool_iff in Hle. congruence.
  - intros H. destruct (Qle_bool b a) eqn:E; [|reflexivity].
    apply Qle_bool_iff in E. lra.
Qed.

(** A value is not both below 0.5 and above 0.9. *)
Lemma jslt_jsgt_exclusive (x : jsnum) :
  jslt x 0.5 = true -> jsgt x 0.9 = true -> False.
Proof.
  destruct x as [q | [|] |]; simpl; try discriminate.
  rewrite !Qltb_true_iff. lra.
Qed.

(** X9: whatever the inputs, [updateInsights] shows between two and four
    messages, the last of them the tip and the counts of positives always
    among them; the base-rate-fallacy message and the high-confidence
    message never appear together, and neither appears when the posterior
    is [NaN]. *)
Theorem updateInsights_shape (this : MedicalTestCalculator) :
  let insights := updateInsights this in
  let stats := calculatePopulationStats this in
  (2 <= length insights <= 4)%nat /\
  last insights BaseRateFallacy = Tip /\
  In (PositiveCounts (total_positives stats) (true_positives stats))
     insights /\
  ~ (In BaseRateFallacy insights /\
     In (HighConfidence (calculatePosterior this)) insights) /\
  (calculatePosterior this = NaN ->
   ~ In BaseRateFallacy insights /\
   ~ In (HighConfidence (calculatePosterior this)) insights).
Proof.
  cbv zeta. unfold updateInsights.
  pose proof (jslt_jsgt_exclusive (calculatePosterior this)) as Hex.
  destruct (jslt (calculatePosterior this) 0.5) eqn:Elt;
    destruct (jsgt (calculatePosterior this) 0.9) eqn:Egt;
    try (exfalso; now apply Hex);
    destruct (Qltb (prevalence this) 5); cbn [app length last In];
    (split; [lia|]); (split; [reflexivity|]);
    (split; [tauto|]);
    (split;
     [intros [H1 H2];
      repeat (destruct H1 as [H1|H1]; try discriminate H1);
      repeat (destruct H2 as [H2|H2]; try discriminate H2); tauto|]);
    intros HN; rewrite HN in Elt, Egt; simpl in Elt, Egt;
      try discriminate;
    split; intros H;
      repeat (destruct H as [H|H]; try discriminate H); tauto.
Qed.

Lemma updateInsights_shape_witness :
  ~ In BaseRateFallacy
      (updateInsights
         {| prevalence := 0; sensitivity := 50; specificity := 100 |}).
Proof.
  apply (updateInsights_shape
           {| prevalence := 0; sensitivity := 50; specificity := 100 |}).
  reflexivity.
Defined.

(** *** Counts and posterior *)

(** X24: the counts tell the same story as the posterior.  When none of
    the three counts had to be rounded, the share of true positives among
    all positives, the two numbers of the message "out of ... people who
    test positive, only ... actually have the disease", is the value of
    [calculatePosterior], a number or [NaN] alike. *)
Theorem counts_agree_with_posterior (this : MedicalTestCalculator) :
  let stats := calculatePopulationStats this in
  inject_Z (diseased stats) == inject_Z 10000 * prevalence this / 100 ->
  inject_Z (true_positives stats)
  == inject_Z (diseased stats) * sensitivity this / 100 ->
  inject_Z (true_negatives stats)
  == inject_Z (healthy stats) * specificity this / 100 ->
  jsnum_same
    (jsdiv (inject_Z (true_positives stats))
           (inject_Z (total_positives stats)))
    (calculatePosterior this).
Proof.
  cbv zeta. unfold calculatePopulationStats.
  cbn [diseased healthy true_positives true_negatives total_positives].
  set (d := Math_round (inject_Z 10000 * prevalence this / 100)).
  set (tp := Math_round (inject_Z d * sensitivity this / 100)).
  set (tn := Math_round (inject_Z (10000 - d) * specificity this / 100)).
  intros Hd Htp Htn. rewrite calculatePosterior_jsdiv.
  assert (Hh : inject_Z (10000 - d) == 10000 - inject_Z d).
  { unfold Z.sub. rewrite inject_Z_plus, inject_Z_opp. reflexivity. }
  apply (jsdiv_scaled 10000); [lra| |];
    unfold posterior_operands; cbn [fst snd].
  - rewrite Htp, Hd. change (inject_Z 10000) with 10000. field.
  - unfold Z.sub. rewrite !inject_Z_plus, !inject_Z_opp.
    fold (Z.sub 10000 d). rewrite Htn, Htp, Hh, Hd.
    change (inject_Z 10000) with 10000. field.
Qed.

Lemma counts_agree_with_posterior_witness :
  jsnum_same (jsdiv (inject_Z 95) (inject_Z 590))
             (calculatePosterior constructor).
Proof.
  apply (counts_agree_with_posterior constructor); reflexivity.
Defined.

End MedicalTestViewTheory.

(** * Further properties of the sampler *)

Module MCMCViewTheory.

Import MCMC MCMCView MCMCTheory.
Local Open Scope R_scope.

(** *** The target density *)

Lemma near_mean (this : MCMC1D) :
  0 < targetStd this -> near this (targetMean this).
Proof.
  intros Hs. unfold near.
  replace (targetMean this - targetMean this) with 0 by ring.
  rewrite Rabs_R0. lra.
Qed.

Lemma targetDensity_le_peak {math : JSMath} (this : MCMC1D) (x : R) :
  0 < targetStd this ->
  targetDensity this x <= targetDensity this (targetMean this).
Proof.
  intros Hs. unfold targetDensity. cbv zeta.
  rewrite !density_exponent by assumption.
  replace ((targetMean this - targetMean this) ^ 2 / (2 * targetStd this ^ 2))
    with 0 by (field; lra).
  rewrite (Math_exp_normal (- 0)) by lra.
  rewrite Ropp_0, exp_0.
  destruct (Math_exp_unit _ (exponent_nonpos (targetStd this)
                               (targetMean this) x Hs)) as [_ H1].
  apply Rmult_le_compat_r; [|exact H1].
  left. apply Rinv_0_lt_compat, sqrt_lt_R0. pose proof PI_RGT_0.
  apply Rmult_lt_0_compat; [lra | now apply Rmult_lt_0_compat].
Qed.

(** X10: with a positive [targetStd] the computed target density is never
    negative and never above its value at [targetMean], which is positive
    (so the curve stays inside the y axis
    [0, 1.1 * targetDensity(targetMean)] of the target chart), and it is
    symmetric about [targetMean].  It is positive within 37 [targetStd] of
    the mean, and exactly 0, by the underflow of [Math.exp], at 39
    [targetStd] or more from it. *)
Theorem targetDensity_peak {math : JSMath} (this : MCMC1D) (x : R) :
  0 < targetStd this ->
  0 <= targetDensity this x <= targetDensity this (targetMean this) /\
  0 < targetDensity this (targetMean this) /\
  targetDensity this (targetMean this)
  < targetDensity this (targetMean this) * 1.1 /\
  targetDensity this (targetMean this + x)
  = targetDensity this (targetMean this - x) /\
  (near this x -> 0 < targetDensity this x) /\
  (far this x -> targetDensity this x = 0).
Proof.
  intros Hs.
  pose proof (targetDensity_pos this (targetMean this) Hs (near_mean this Hs))
    as Hm.
  split; [split|]; [now apply targetDensity_nonneg
                   | now apply targetDensity_le_peak |].
  split; [exact Hm|]. split; [lra|]. split; [|split].
  - unfold targetDensity. cbv zeta. do 2 f_equal. f_equal. f_equal. ring.
  - now apply targetDensity_pos.
  - now apply targetDensity_far.
Qed.

Lemma targetDensity_peak_witness :
  0 < targetDensity (math := flushing_math) constructor 2
  <= targetDensity (math := flushing_math) constructor
       (targetMean constructor) /\
  targetDensity (math := flushing_math) constructor 40 = 0.
Proof.
  assert (Hs : 0 < targetStd constructor) by (simpl; lra).
  destruct (targetDensity_peak (math := flushing_math) constructor 2 Hs)
    as ([_ Hle] & _ & _ & _ & Hnear & _).
  destruct (targetDensity_peak (math := flushing_math) constructor 40 Hs)
    as (_ & _ & _ & _ & _ & Hfar).
  split; [split; [|exact Hle]|].
  - apply Hnear. unfold near. simpl. rewrite Rabs_pos_eq; lra.
  - apply Hfar. unfold far. simpl. rewrite Rabs_pos_eq; lra.
Defined.

(** *** Acceptance *)

Lemma acceptProposal_threshold {math : JSMath} this current proposed u :
  acceptProposal this current proposed u
  = num_lt u (acceptanceThreshold this current proposed).
Proof. reflexivity. Qed.

(** For positive densities [a], [b] the flow [a * min(1, b / a)] is
    symmetric: it is the smaller of the two. *)
Lemma metropolis_flow (a b : R) :
  0 < a -> 0 < b -> a * Rmin 1 (b / a) = Rmin a b.
Proof.
  intros Ha Hb. unfold Rmin.
  destruct (Rle_dec 1 (b / a)) as [H | H], (Rle_dec a b) as [H' | H'];
    try lra; try (field; lra); exfalso.
  - apply H'. apply (Rmult_le_compat_r a) in H; [|lra].
    unfold Rdiv in H. rewrite Rmult_assoc, Rinv_l in H by lra. lra.
  - apply H. apply (Rmult_le_reg_r a); [lra|].
    unfold Rdiv. rewrite Rmult_assoc, Rinv_l by lra. lra.
Qed.

(** X11: with a positive [targetStd] and both positions within 37
    [targetStd] of [targetMean], the value the acceptance draw is compared
    with is a probability in (0, 1] and satisfies detailed balance for the
    target density: the density at [x] times the acceptance probability of
    a move from [x] to [y] equals the density at [y] times that of the move
    back.  Where a density has underflowed (39 [targetStd] or more from
    the mean) the value is [NaN] when both have, 0 for a move from a
    position within 37 to one that has, and 1 for the move back. *)
Theorem acceptanceThreshold_detailed_balance
        {math : JSMath} (this : MCMC1D) (x y : R) :
  0 < targetStd this ->
  (near this x -> near this y ->
   exists a b,
     acceptanceThreshold this x y = Num a /\
     acceptanceThreshold this y x = Num b /\
     0 < a <= 1 /\
     targetDensity this x * a = targetDensity this y * b) /\
  (far this x -> far this y -> acceptanceThreshold this x y = NotANumber) /\
  (near this x -> far this y -> acceptanceThreshold this x y = Num 0) /\
  (far this x -> near this y -> acceptanceThreshold this x y = Num 1).
Proof.
  intros Hs. unfold acceptanceThreshold. cbv zeta.
  split; [|split; [|split]].
  - intros Hx Hy.
    pose proof (targetDensity_pos this x Hs Hx) as Dx.
    pose proof (targetDensity_pos this y Hs Hy) as Dy.
    rewrite !num_div_number by lra. cbn [Math_min].
    eexists; eexists. split; [reflexivity|]. split; [reflexivity|]. split.
    + assert (0 < targetDensity this y / targetDensity this x)
        by (apply Rdiv_lt_0_compat; assumption).
      unfold Rmin. destruct (Rle_dec _ _); lra.
    + rewrite !metropolis_flow by assumption. apply Rmin_comm.
  - intros Hx Hy. rewrite !targetDensity_far by assumption.
    now rewrite num_div_zero_zero.
  - intros Hx Hy.
    pose proof (targetDensity_pos this x Hs Hx) as Dx.
    rewrite (targetDensity_far this y) by assumption.
    rewrite num_div_number by lra. cbn [Math_min]. f_equal.
    unfold Rdiv. rewrite Rmult_0_l. apply Rmin_right. lra.
  - intros Hx Hy.
    pose proof (targetDensity_pos this y Hs Hy) as Dy.
    rewrite (targetDensity_far this x) by assumption.
    now rewrite num_div_positive_zero by assumption.
Qed.

Lemma acceptanceThreshold_detailed_balance_witness :
  (exists a b,
      acceptanceThreshold (math := flushing_math) constructor 0 1 = Num a /\
      acceptanceThreshold (math := flushing_math) constructor 1 0 = Num b /\
      0 < a <= 1 /\
      targetDensity (math := flushing_math) constructor 0 * a
      = targetDensity (math := flushing_math) constructor 1 * b) /\
  acceptanceThreshold (math := flushing_math) constructor 0 40 = Num 0 /\
  acceptanceThreshold (math := flushing_math) constructor 40 41 = NotANumber.
Proof.
  assert (Hs : 0 < targetStd constructor) by (simpl; lra).
  assert (Hnear : forall x, 0 <= x <= 37 -> near constructor x).
  { intros x Hx. unfold near. simpl. rewrite Rabs_pos_eq; lra. }
  assert (Hfar : forall x, 39 <= x -> far constructor x).
  { intros x Hx. unfold far. simpl. rewrite Rabs_pos_eq; lra. }
  split; [|split].
  - apply (acceptanceThreshold_detailed_balance (math := flushing_math)
             constructor 0 1 Hs); apply Hnear; lra.
  - apply (acceptanceThreshold_detailed_balance (math := flushing_math)
             constructor 0 40 Hs); [apply Hnear | apply Hfar]; lra.
  - apply (acceptanceThreshold_detailed_balance (math := flushing_math)
             constructor 40 41 Hs); apply Hfar; lra.
Defined.

(** X12: with a positive [targetStd], the current position within 37
    [targetStd] of [targetMean] and an acceptance draw below 1, a proposal
    at least as close to [targetMean] as the current position is always
    accepted: the step moves there, counts it and records it. *)
Theorem mcmcStep_uphill_accepted
        {math : JSMath} (this : MCMC1D) (u1 u2 : R) :
  0 < targetStd this ->
  u2 < 1 ->
  near this (currentPosition this) ->
  Rabs (proposePosition this u1 - targetMean this)
  <= Rabs (currentPosition this - targetMean this) ->
  let this' := mcmcStep this u1 u2 in
  currentPosition this' = proposePosition this u1 /\
  acceptedSamples this' = S (acceptedSamples this) /\
  samples this' = samples this ++ [proposePosition this u1].
Proof.
  intros Hs Hu Hnear Hclose. cbv zeta.
  assert (Hacc : acceptProposal this (currentPosition this)
                   (proposePosition this u1) u2 = true).
  { apply acceptProposal_near; try assumption.
    - unfold near in *. lra.
    - assert (Hsq : (proposePosition this u1 - targetMean this) ^ 2
                    <= (currentPosition this - targetMean this) ^ 2).
      { apply pow_maj_Rabs with (n := 2%nat) in Hclose.
        rewrite pow2_abs in Hclose. exact Hclose. }
      rewrite Rmin_left
        by (now apply gaussian_density_ratio_uphill).
      exact Hu. }
  rewrite mcmcStep_cases. cbv zeta. rewrite Hacc.
  repeat split.
Qed.

Lemma mcmcStep_uphill_accepted_witness :
  currentPosition
    (mcmcStep (math := flushing_math) (set_currentPosition 3 constructor)
       0.25 0.99)
  = proposePosition (set_currentPosition 3 constructor) 0.25.
Proof.
  pose proof sqrt_12_bounds as H12.
  apply (mcmcStep_uphill_accepted (math := flushing_math)
           (set_currentPosition 3 constructor) 0.25 0.99).
  - simpl. lra.
  - lra.
  - unfold near. simpl. rewrite Rabs_pos_eq; lra.
  - unfold proposePosition. simpl. rewrite !Rabs_pos_eq; lra.
Defined.

(** *** The proposal *)

(** X13: for a draw [u] in [0,1) and a non-negative [proposalStd] the
    proposed position is never further than [sqrt 12 * proposalStd], less
    than 4 standard deviations, from the current one, and the proposal is
    symmetric: the draws [u] and [1 - u] propose mirror-image moves. *)
Theorem proposePosition_bounded_symmetric (this : MCMC1D) (u : R) :
  0 <= proposalStd this ->
  0 <= u < 1 ->
  Rabs (proposePosition this u - currentPosition this)
  <= sqrt 12 * proposalStd this /\
  sqrt 12 * proposalStd this <= 4 * proposalStd this /\
  proposePosition this (1 - u) - currentPosition this
  = - (proposePosition this u - currentPosition this).
Proof.
  intros Hs Hu. pose proof sqrt_12_bounds as H12.
  unfold proposePosition. repeat split.
  - replace (currentPosition this
             + (u - 0.5) * 2 * proposalStd this * sqrt 12
             - currentPosition this)
      with ((2 * u - 1) * (sqrt 12 * proposalStd this)) by lra.
    assert (Hk : 0 <= sqrt 12 * proposalStd this)
      by (apply Rmult_le_pos; lra).
    apply Rabs_le. split; nra.
  - nra.
  - lra.
Qed.

Lemma proposePosition_bounded_symmetric_witness :
  Rabs (proposePosition constructor 0.9 - currentPosition constructor)
  <= sqrt 12 * proposalStd constructor.
Proof.
  apply (proposePosition_bounded_symmetric constructor 0.9).
  - simpl. lra.
  - lra.
Defined.

(** *** The chain state *)

Lemma mcmcStep_isRunning {math : JSMath} this u1 u2 :
  isRunning (mcmcStep this u1 u2) = isRunning this.
Proof.
  rewrite mcmcStep_cases. cbv zeta.
  destruct (acceptProposal _ _ _ _); reflexivity.
Qed.

Lemma mcmcStep_parameters {math : JSMath} this u1 u2 :
  targetStd (mcmcStep this u1 u2) = targetStd this /\
  proposalStd (mcmcStep this u1 u2) = proposalStd this.
Proof.
  rewrite mcmcStep_cases. cbv zeta.
  destruct (acceptProposal _ _ _ _); split; reflexivity.
Qed.

Lemma mcmcStep_last {math : JSMath} this u1 u2 (d : R) :
  last (samples (mcmcStep this u1 u2)) d
  = currentPosition (mcmcStep this u1 u2).
Proof. rewrite mcmcStep_samples. apply last_last. Qed.

(** X14: in every state the page can reach, the last recorded sample, if
    there is one, is the current position: the trace ends where the marker
    of the current position stands. *)
Theorem reachable_last_sample {math : JSMath} (this : MCMC1D) (d : R) :
  reachable this ->
  samples this <> [] ->
  last (samples this) d = currentPosition this.
Proof.
  induction 1; intros Hne; try (apply IHreachable; exact Hne).
  - exfalso. apply Hne. reflexivity.
  - exfalso. apply Hne. reflexivity.
  - apply mcmcStep_last.
  - destruct (animate_Some_inv _ _ _ _ H0) as [-> | ->].
    + apply IHreachable. exact Hne.
    + apply mcmcStep_last.
  - apply startSampling_Some_inv in H0. subst this'. apply mcmcStep_last.
Qed.

Lemma reachable_last_sample_witness :
  let this :=
    mcmcStep (math := flushing_math)
      (mcmcStep (math := flushing_math) constructor 0.5 0.3) 0.9 0.2 in
  last (samples this) 0 = currentPosition this.
Proof.
  cbv zeta. apply (reachable_last_sample (math := flushing_math)).
  - apply reach_step, reach_step, reach_constructor.
  - rewrite mcmcStep_samples. intros H. symmetry in H.
    exact (app_cons_not_nil _ _ _ H).
Defined.

(** X15: a sampler that is not running ignores the animation callback:
    after [pauseSampling] or [resetSampling] any number of pending calls
    of [animate] returns and leaves the state as it is, so a reset chain
    stays empty until it is started again. *)
Theorem run_ticks_stopped
        {math : JSMath} (this : MCMC1D) (draws : list (R * R)) :
  (isRunning this = false -> run_ticks this draws = Some this) /\
  run_ticks (pauseSampling this) draws = Some (pauseSampling this) /\
  run_ticks (resetSampling this) draws = Some (resetSampling this) /\
  option_map samples (run_ticks (resetSampling this) draws) = Some [].
Proof.
  assert (Hstop : forall st,
             isRunning st = false -> run_ticks st draws = Some st).
  { induction draws as [|[u1 u2] draws IH]; intros st Hst; [reflexivity|].
    cbn [run_ticks fst snd].
    rewrite animate_paused by exact Hst. now apply IH. }
  split; [apply Hstop|]. split; [now apply Hstop|].
  split; [now apply Hstop|]. now rewrite Hstop.
Qed.

Lemma run_ticks_stopped_witness :
  run_ticks (math := flushing_math) constructor [(0.5, 0.3); (0.9, 0.2)]
  = Some constructor.
Proof.
  apply (proj1 (run_ticks_stopped (math := flushing_math) constructor
                  [(0.5, 0.3); (0.9, 0.2)])).
  reflexivity.
Defined.

(** A call of [animate] on a running sampler either returns the state
    after the step or does not return. *)
Lemma animate_running_returns {math : JSMath} this u1 u2 :
  isRunning this = true ->
  (animate this u1 u2 = None
   <-> updateAll_returns (mcmcStep this u1 u2) = false) /\
  (updateAll_returns (mcmcStep this u1 u2) = true ->
   animate this u1 u2 = Some (mcmcStep this u1 u2)).
Proof.
  intros Hrun. rewrite animate_running by exact Hrun.
  destruct (updateAll_returns (mcmcStep this u1 u2)); split;
    try split; congruence.
Qed.

(** X16: on a running sampler, [n] calls of [animate] that all return have
    kept the old samples, in order, and appended [n] new ones; the sampler
    is still running and [acceptedSamples] has grown by at most [n].  A
    call fails to return exactly when the redrawing after its step does: it
    returns whenever fewer than ten samples are recorded after the step and
    [targetStd] and [proposalStd] are not 0, and it never returns when ten
    or more samples are recorded and all of them are equal, the overlay
    loop of the histogram then having the step 0. *)
Theorem run_ticks_running
        {math : JSMath} (this : MCMC1D) (draws : list (R * R)) :
  isRunning this = true ->
  (forall this',
      run_ticks this draws = Some this' ->
      isRunning this' = true /\
      (exists recorded,
          samples this' = samples this ++ recorded /\
          length recorded = length draws) /\
      (acceptedSamples this <= acceptedSamples this'
       <= acceptedSamples this + length draws)%nat) /\
  (forall u1 u2,
      let this1 := mcmcStep this u1 u2 in
      (animate this u1 u2 = None <-> updateAll_returns this1 = false) /\
      ((length (samples this1) < 10)%nat ->
       targetStd this <> 0 -> proposalStd this <> 0 ->
       animate this u1 u2 = Some this1) /\
      ((10 <= length (samples this1))%nat ->
       Forall (eq (currentPosition this1)) (samples this1) ->
       animate this u1 u2 = None)).
Proof.
  intros Hrun0. split.
  - revert this Hrun0.
    induction draws as [|[u1 u2] draws IH]; intros this Hrun this' Hret.
    + cbn [run_ticks] in Hret. injection Hret as <-.
      split; [exact Hrun|]. split; [|simpl; lia].
      exists []. split; [symmetry; apply app_nil_r | reflexivity].
    + cbn [run_ticks fst snd] in Hret.
      rewrite animate_running in Hret by exact Hrun.
      destruct (updateAll_returns (mcmcStep this u1 u2)); [|discriminate].
      assert (Hrun' : isRunning (mcmcStep this u1 u2) = true)
        by (now rewrite mcmcStep_isRunning).
      destruct (IH _ Hrun' _ Hret) as (Hr & (rec & Hs & Hl) & Ha).
      split; [exact Hr|]. split.
      * exists (currentPosition (mcmcStep this u1 u2) :: rec). split.
        -- rewrite Hs, mcmcStep_samples, <- app_assoc. reflexivity.
        -- simpl. now rewrite Hl.
      * destruct (mcmcStep_acceptedSamples this u1 u2) as [E | E];
          rewrite E in Ha; simpl; lia.
  - intros u1 u2. cbv zeta.
    destruct (animate_running_returns this u1 u2 Hrun0) as [Hnone Hsome].
    split; [exact Hnone|]. split.
    + intros Hlen Ht Hp. apply Hsome. apply updateAll_returns_iff.
      destruct (mcmcStep_parameters this u1 u2) as [-> ->].
      split; [exact Ht|]. split; [intros _; exact Hp | lia].
    + intros Hlen Hall. apply Hnone.
      now apply (updateAll_hangs_constant _ _ Hlen Hall).
Qed.

Lemma run_ticks_running_witness :
  let this := set_isRunning true constructor in
  animate (math := flushing_math) this 0.25 0.3
  = Some (mcmcStep (math := flushing_math) this 0.25 0.3).
Proof.
  cbv zeta.
  destruct (run_ticks_running (math := flushing_math)
              (set_isRunning true constructor) [] eq_refl) as [_ H].
  apply (H 0.25 0.3).
  - rewrite mcmcStep_samples, length_app. simpl. lia.
  - simpl. lra.
  - simpl. lra.
Defined.

(** X17: in every state the page can reach, the acceptance rate that
    [updateStats] shows is between 0 and 100, and it is 0 while no sample
    is recorded. *)
Theorem acceptanceRate_percentage {math : JSMath} (this : MCMC1D) :
  reachable this ->
  0 <= acceptanceRate this <= 100 /\
  (samples this = [] -> acceptanceRate this = 0).
Proof.
  intros Hr. apply reachable_counted in Hr. unfold counted in Hr.
  unfold acceptanceRate. split.
  - destruct (0 <? length (samples this))%nat eqn:E; [|lra].
    apply Nat.ltb_lt in E.
    assert (Hn : 0 < INR (length (samples this))) by (now apply lt_0_INR).
    assert (Ha : 0 <= INR (acceptedSamples this)) by apply pos_INR.
    assert (Hle : INR (acceptedSamples this) <= INR (length (samples this)))
      by (now apply le_INR).
    assert (Hq : 0 <= INR (acceptedSamples this)
                      / INR (length (samples this)) <= 1).
    { split.
      - apply Rmult_le_pos; [assumption|]. left.
        now apply Rinv_0_lt_compat.
      - apply (Rmult_le_reg_r (INR (length (samples this)))); [assumption|].
        unfold Rdiv. rewrite Rmult_assoc, Rinv_l by lra. lra. }
    lra.
  - intros ->. reflexivity.
Qed.

Lemma acceptanceRate_percentage_witness :
  0 <= acceptanceRate
         (mcmcStep (math := flushing_math)
            (mcmcStep (math := flushing_math) constructor 0.5 0.3) 0.9 0.2)
  <= 100.
Proof.
  apply (acceptanceRate_percentage (math := flushing_math)).
  apply reach_step, reach_step, reach_constructor.
Defined.

(** *** Timing *)

(** X18: the delay between two steps is never below 100 ms, whatever the
    speed; for the slider's speeds 1 to 5 it is [(6 - speed) * 100], from
    500 ms down to 100 ms, and a higher speed never gives a longer
    delay. *)
Theorem animationDelay_bounds (this this' : MCMC1D) :
  (100 <= animationDelay this)%Z /\
  ((1 <= animationSpeed this <= 5)%Z ->
   animationDelay this = ((6 - animationSpeed this) * 100)%Z /\
   (100 <= animationDelay this <= 500)%Z) /\
  ((animationSpeed this <= animationSpeed this')%Z ->
   (animationDelay this' <= animationDelay this)%Z).
Proof. unfold animationDelay. repeat split; lia. Qed.

Lemma animationDelay_bounds_witness :
  animationDelay constructor = 300%Z /\
  (animationDelay (set_animationSpeed 5 constructor)
   <= animationDelay constructor)%Z.
Proof.
  destruct (animationDelay_bounds constructor
              (set_animationSpeed 5 constructor)) as (_ & H1 & H2).
  split.
  - destruct H1 as [E _]; [simpl; lia|]. rewrite E. reflexivity.
  - apply H2. simpl. lia.
Defined.

(** X19: the speed label is defined exactly for the speeds 1 to 5; any
    other speed indexes outside the five labels and shows [undefined]. *)
Theorem updateAnimationSpeedLabel_defined (this : MCMC1D) :
  updateAnimationSpeedLabel this <> None
  <-> (1 <= animationSpeed this <= 5)%Z.
Proof.
  unfold updateAnimationSpeedLabel, js_index. cbv zeta.
  destruct (animationSpeed this - 1 <? 0)%Z eqn:E.
  - apply Z.ltb_lt in E. split; [congruence | lia].
  - apply Z.ltb_ge in E. rewrite nth_error_Some. cbn [length]. lia.
Qed.

Lemma updateAnimationSpeedLabel_defined_witness :
  updateAnimationSpeedLabel constructor <> None.
Proof.
  apply (updateAnimationSpeedLabel_defined constructor). simpl. lia.
Defined.

(** *** The trace chart *)

Lemma recentSamples_skipn this :
  recentSamples this = skipn (length (samples this) - 20) (samples this).
Proof.
  unfold recentSamples, Array_slice. cbv zeta.
  change (-20 <? 0)%Z with true. cbv iota. f_equal. lia.
Qed.

(** X20: the highlighted points of the trace chart are the last 20
    samples (all of them while there are fewer), drawn at their own
    indices: the [i]-th highlighted point is the sample number
    [startIndex + i], and its opacity is between 0.3 and 1. *)
Theorem recentSamples_aligned (this : MCMC1D) :
  length (recentSamples this) = Nat.min 20 (length (samples this)) /\
  (Z.to_nat (startIndex this) + length (recentSamples this)
   = length (samples this))%nat /\
  (forall i : nat,
      nth_error (recentSamples this) i
      = nth_error (samples this) (Z.to_nat (startIndex this) + i)) /\
  (forall i : nat,
      (i < length (recentSamples this))%nat ->
      0.3 <= recentOpacity this i < 1).
Proof.
  assert (Hs : Z.to_nat (startIndex this) = (length (samples this) - 20)%nat)
    by (unfold startIndex; lia).
  assert (Hl : length (recentSamples this)
               = Nat.min 20 (length (samples this)))
    by (rewrite recentSamples_skipn, length_skipn; lia).
  split; [exact Hl|]. split; [lia|]. split.
  - intros i. rewrite Hs, recentSamples_skipn. apply nth_error_skipn.
  - intros i Hi. unfold recentOpacity.
    assert (Hn : 0 < INR (length (recentSamples this)))
      by (apply lt_0_INR; lia).
    assert (H0 : 0 <= INR i) by apply pos_INR.
    assert (H1 : INR i < INR (length (recentSamples this)))
      by (now apply lt_INR).
    assert (Hq : 0 <= INR i / INR (length (recentSamples this)) < 1).
    { split.
      - apply Rmult_le_pos; [assumption|]. left.
        now apply Rinv_0_lt_compat.
      - apply (Rmult_lt_reg_r (INR (length (recentSamples this))));
          [assumption|].
        unfold Rdiv. rewrite Rmult_assoc, Rinv_l by lra. lra. }
    lra.
Qed.

Lemma recentSamples_aligned_witness :
  0.3 <= recentOpacity (set_samples [1; 2; 3] constructor) 1 < 1.
Proof.
  apply (recentSamples_aligned (set_samples [1; 2; 3] constructor)).
  simpl. lia.
Defined.

(** *** The histogram *)

(** [Math.floor(Math.sqrt(n))] of a count [n] is its integer square
    root. *)
Lemma floor_sqrt_nat (n : nat) :
  Int_part (sqrt (INR n)) = Z.of_nat (Nat.sqrt n).
Proof.
  symmetry. apply Int_part_spec.
  destruct (Nat.sqrt_spec n (Nat.le_0_l n)) as [Hlo Hhi].
  set (r := Nat.sqrt n) in *.
  rewrite <- INR_IZR_INZ.
  assert (Hr : 0 <= INR r) by apply pos_INR.
  assert (E1 : sqrt (INR (r * r)) = INR r)
    by (rewrite mult_INR; apply sqrt_square; assumption).
  assert (E2 : sqrt (INR (S r * S r)) = INR r + 1).
  { rewrite mult_INR, S_INR. apply sqrt_square. lra. }
  assert (L1 : sqrt (INR (r * r)) <= sqrt (INR n))
    by (apply sqrt_le_1; try apply pos_INR; now apply le_INR).
  assert (L2 : sqrt (INR n) < sqrt (INR (S r * S r)))
    by (apply sqrt_lt_1; try apply pos_INR; now apply lt_INR).
  lra.
Qed.

(** X21: the histogram is drawn from ten samples on, and then asks for
    between 3 and 20 bins, never more than the square root of the number
    of samples. *)
Theorem binCount_bounds (this : MCMC1D) :
  histogramDrawn this = true ->
  (10 <= length (samples this))%nat /\
  (3 <= binCount this <= 20)%Z /\
  (binCount this * binCount this <= Z.of_nat (length (samples this)))%Z.
Proof.
  unfold histogramDrawn, binCount. rewrite negb_true_iff, Nat.ltb_ge.
  intros Hn. rewrite floor_sqrt_nat.
  destruct (Nat.sqrt_spec (length (samples this)) (Nat.le_0_l _)) as [Hlo _].
  assert (H3 : (Nat.sqrt 9 <= Nat.sqrt (length (samples this)))%nat)
    by (apply Nat.sqrt_le_mono; lia).
  change (Nat.sqrt 9) with 3%nat in H3.
  set (r := Nat.sqrt (length (samples this))) in *.
  split; [exact Hn|]. split; [lia|].
  assert (Hm : (Z.min 20 (Z.of_nat r) <= Z.of_nat r)%Z) by lia.
  assert (H0 : (0 <= Z.min 20 (Z.of_nat r))%Z) by lia.
  nia.
Qed.

Lemma binCount_bounds_witness :
  (3 <= binCount
          (set_samples (repeat 0%R 12) constructor)
   <= 20)%Z.
Proof.
  apply (binCount_bounds
           (set_samples (repeat 0%R 12) constructor)).
  reflexivity.
Defined.

(** X22: with a positive [targetStd] the overlay of the histogram fits
    its y axis [0, maxCount]: the scaled density is never negative, never
    above the tallest bin, and touches it at [targetMean]. *)
Theorem histogramOverlay_fits
        {math : JSMath} (this : MCMC1D) (maxCount : nat) (x : R) :
  0 < targetStd this ->
  0 <= histogramOverlay this maxCount x <= INR maxCount /\
  histogramOverlay this maxCount (targetMean this) = INR maxCount.
Proof.
  intros Hs. unfold histogramOverlay. cbv zeta.
  pose proof (targetDensity_nonneg this x Hs) as Hx.
  pose proof (targetDensity_pos this (targetMean this) Hs (near_mean this Hs))
    as Hm.
  pose proof (targetDensity_le_peak this x Hs) as Hle.
  pose proof (pos_INR maxCount) as Hc.
  set (dx := targetDensity this x) in *.
  set (dm := targetDensity this (targetMean this)) in *.
  assert (Hq : 0 <= dx / dm <= 1).
  { split.
    - apply Rmult_le_pos; [lra|]. left. now apply Rinv_0_lt_compat.
    - apply (Rmult_le_reg_r dm); [assumption|].
      unfold Rdiv. rewrite Rmult_assoc, Rinv_l by lra. lra. }
  replace (dx * (INR maxCount / dm)) with (INR maxCount * (dx / dm))
    by (field; lra).
  split; [split; nra|]. field. lra.
Qed.

Lemma histogramOverlay_fits_witness :
  histogramOverlay (math := flushing_math) constructor 7
    (targetMean constructor)
  = INR 7.
Proof.
  apply (histogramOverlay_fits (math := flushing_math) constructor 7 0).
  simpl. lra.
Defined.

Lemma sqrt_12_lower : 3.4 < sqrt 12.
Proof.
  assert (H : sqrt (3.4 * 3.4) = 3.4) by (apply sqrt_square; lra).
  assert (sqrt (3.4 * 3.4) < sqrt 12) by (apply sqrt_lt_1; lra).
  lra.
Qed.

(** X23: the proposal chart does not show every proposal: with a positive
    [proposalStd], a draw of 0.95 or more proposes a position to the right
    of the chart's x range, and a draw of 0.05 or less one to its left. *)
Theorem proposal_outside_chart (this : MCMC1D) (u : R) :
  0 < proposalStd this ->
  (0.95 <= u -> snd (proposalChartRange this) < proposePosition this u) /\
  (u <= 0.05 -> proposePosition this u < fst (proposalChartRange this)).
Proof.
  intros Hs. pose proof sqrt_12_lower as H12.
  unfold proposalChartRange, proposePosition. cbn [fst snd].
  assert (Hk : 3 * proposalStd this < sqrt 12 * proposalStd this)
    by (apply Rmult_lt_compat_r; lra).
  set (k := sqrt 12 * proposalStd this) in *.
  assert (Hk0 : 0 < k) by lra.
  split; intros Hu.
  - replace ((u - 0.5) * 2 * proposalStd this * sqrt 12)
      with ((2 * u - 1) * k) by (unfold k; lra).
    assert (0.9 * k <= (2 * u - 1) * k)
      by (apply Rmult_le_compat_r; lra).
    assert (3 * proposalStd this < 0.9 * k).
    { unfold k in *. clear Hk. nra. }
    lra.
  - replace ((u - 0.5) * 2 * proposalStd this * sqrt 12)
      with (- ((1 - 2 * u) * k)) by (unfold k; lra).
    assert (0.9 * k <= (1 - 2 * u) * k)
      by (apply Rmult_le_compat_r; lra).
    assert (3 * proposalStd this < 0.9 * k).
    { unfold k in *. clear Hk. nra. }
    lra.
Qed.

Lemma proposal_outside_chart_witness :
  snd (proposalChartRange constructor) < proposePosition constructor 0.97.
Proof.
  apply (proposal_outside_chart constructor 0.97).
  - simpl. lra.
  - lra.
Defined.

End MCMCViewTheory.
